(* Verification model of src/convert.py (Google "My Maps" CSV to KML/KMZ).
   Shallow embedding of process_csv_row, Geocoder.reverse_geocode,
   process_csv_file, write_kml and get_icon_url.  Text is modelled as
   ASCII strings; Python floats are modelled as exact decimals. *)

From Stdlib Require Import String Ascii List ZArith QArith Bool Lia.
From stdpp Require Import base gmap strings.

Import ListNotations.
Open Scope string_scope.

(* ===================================================================== *)
(** * Python string operations used by the converter *)
(* ===================================================================== *)

Module PyStr.

(** [s.startswith(p)] *)
Fixpoint startswith (s p : string) : bool :=
  match p, s with
  | EmptyString, _ => true
  | String c p', String d s' => Ascii.eqb c d && startswith s' p'
  | String _ _, EmptyString => false
  end.

(** [p in s] *)
Fixpoint contains (s p : string) : bool :=
  startswith s p ||
  match s with
  | EmptyString => false
  | String _ s' => contains s' p
  end.

(** [s.find(p)]: index of the first occurrence, or -1. *)
Fixpoint find_nat (s p : string) : option nat :=
  if startswith s p then Some 0
  else match s with
       | EmptyString => None
       | String _ s' => option_map S (find_nat s' p)
       end.

Definition find (s p : string) : Z :=
  match find_nat s p with Some n => Z.of_nat n | None => (-1)%Z end.

(** [s[a:b]] for non-negative [a] and [b] (Python clamps to the length). *)
Definition slice (s : string) (a b : nat) : string :=
  substring a (b - a) s.

(** [s.split(sep)] for a non-empty separator. *)
Fixpoint split_aux (fuel : nat) (sep s : string) (cur : string) : list string :=
  match fuel with
  | O => [cur ++ s]
  | S fuel' =>
    if startswith s sep then
      cur :: split_aux fuel' sep (substring (String.length sep)
                                    (String.length s - String.length sep) s) ""
    else match s with
         | EmptyString => [cur]
         | String c s' => split_aux fuel' sep s' (cur ++ String c "")
         end
  end.

Definition split (s sep : string) : list string :=
  split_aux (S (String.length s)) sep s "".

(** [xs[-1]] and [xs[0]] of a (non-empty) split result. *)
Definition last_piece (xs : list string) : string := List.last xs "".
Definition first_piece (xs : list string) : string := List.hd "" xs.

(** ASCII part of [str.lower]. *)
Definition lower_char (c : ascii) : ascii :=
  let n := nat_of_ascii c in
  if (Nat.leb 65 n) && (Nat.leb n 90) then ascii_of_nat (n + 32) else c.

Fixpoint lower (s : string) : string :=
  match s with
  | EmptyString => EmptyString
  | String c s' => String (lower_char c) (lower s')
  end.

(** [str.isspace] on ASCII: \t \n \v \f \r, \x1c-\x1f and space. *)
Definition is_space (c : ascii) : bool :=
  let n := nat_of_ascii c in
  ((Nat.leb 9 n) && (Nat.leb n 13)) || ((Nat.leb 28 n) && (Nat.leb n 32)).

Definition is_digit (c : ascii) : bool :=
  let n := nat_of_ascii c in (Nat.leb 48 n) && (Nat.leb n 57).

End PyStr.

Import PyStr.

(* ===================================================================== *)
(** * Python floats *)
(* ===================================================================== *)

Module PyFloat.

(** A float value: a finite decimal [(-1)^neg * m * 10^e], an infinity
    or NaN.  Binary64 rounding is not modelled: values are exact decimals. *)
Inductive pyfloat :=
| PFin (neg : bool) (m : N) (e : Z)
| PInf (neg : bool)
| PNaN.

Definition to_Q (neg : bool) (m : N) (e : Z) : Q :=
  let v := (Z.of_N m # 1)%Q in
  let v := match e with
           | Z0 => v
           | Zpos p => (v * (Z.pow 10 (Zpos p) # 1))%Q
           | Zneg p => (v * (1 # Z.to_pos (Z.pow 10 (Zpos p))))%Q
           end in
  if neg then (- v)%Q else v.

(** [lo <= x <= hi] for integer bounds, as Python compares floats
    (every comparison with NaN is false). *)
Definition in_range (lo hi : Z) (x : pyfloat) : bool :=
  match x with
  | PFin neg m e =>
      let q := to_Q neg m e in Qle_bool (lo # 1) q && Qle_bool q (hi # 1)
  | PInf _ => false
  | PNaN => false
  end.

(** Parsing, as [float(s)]: surrounding whitespace, optional sign,
    inf/infinity/nan in any case, or digits with optional fraction,
    optional exponent and single underscores between digits. *)
Fixpoint digitpart_rest (l : list ascii) (acc : list ascii) : list ascii * list ascii :=
  match l with
  | c :: l' =>
      if is_digit c then digitpart_rest l' (acc ++ [c])
      else if Ascii.eqb c "_" then
        match l' with
        | d :: l'' => if is_digit d then digitpart_rest l'' (acc ++ [d]) else (acc, l)
        | [] => (acc, l)
        end
      else (acc, l)
  | [] => (acc, l)
  end.

(** A digit part: one digit, then digits with optional single underscores. *)
Definition digitpart (l : list ascii) : option (list ascii * list ascii) :=
  match l with
  | c :: l' => if is_digit c then Some (digitpart_rest l' [c]) else None
  | [] => None
  end.

Definition digits_value (ds : list ascii) : N :=
  fold_left (fun acc c => (acc * 10 + N.of_nat (nat_of_ascii c - 48))%N) ds 0%N.

Fixpoint strip_left (l : list ascii) : list ascii :=
  match l with
  | c :: l' => if is_space c then strip_left l' else l
  | [] => []
  end.

Definition strip (l : list ascii) : list ascii := rev (strip_left (rev (strip_left l))).

Definition sign (l : list ascii) : bool * list ascii :=
  match l with
  | c :: l' =>
      if Ascii.eqb c "-" then (true, l')
      else if Ascii.eqb c "+" then (false, l') else (false, l)
  | [] => (false, l)
  end.

Definition lower_list (l : list ascii) : list ascii := map lower_char l.

Definition exponent (l : list ascii) : option (Z * list ascii) :=
  match l with
  | c :: l' =>
      if Ascii.eqb c "e" || Ascii.eqb c "E" then
        let '(neg, l'') := sign l' in
        match digitpart l'' with
        | Some (ds, rest) =>
            let v := Z.of_N (digits_value ds) in
            Some (if neg then (- v)%Z else v, rest)
        | None => None
        end
      else Some (0%Z, l)
  | [] => Some (0%Z, l)
  end.

(** The numeric body after the sign: [int], [int.], [int.frac] or [.frac]. *)
Definition mantissa (l : list ascii) : option (list ascii * list ascii * list ascii) :=
  let '(ip, rest) := match digitpart l with Some r => r | None => ([], l) end in
  match rest with
  | c :: rest' =>
      if Ascii.eqb c "." then
        let '(fp, rest'') := match digitpart rest' with Some r => r | None => ([], rest') end in
        match ip, fp with
        | [], [] => None
        | _, _ => Some (ip, fp, rest'')
        end
      else match ip with [] => None | _ => Some (ip, [], rest) end
  | [] => match ip with [] => None | _ => Some (ip, [], rest) end
  end.

Definition py_float_list (l : list ascii) : option pyfloat :=
  let '(neg, body) := sign (strip l) in
  let lb := string_of_list_ascii (lower_list body) in
  if String.eqb lb "inf" || String.eqb lb "infinity" then Some (PInf neg)
  else if String.eqb lb "nan" then Some PNaN
  else
    match mantissa body with
    | Some (ip, fp, rest) =>
        match exponent rest with
        | Some (ex, []) =>
            Some (PFin neg (digits_value (ip ++ fp)) (ex - Z.of_nat (length fp))%Z)
        | _ => None
        end
    | None => None
    end.

(** [float(s)]: [None] stands for the [ValueError] it raises. *)
Definition py_float (s : string) : option pyfloat := py_float_list (list_ascii_of_string s).

(** Decimal digits of a natural number. *)
Fixpoint digits_aux (fuel : nat) (n : N) (acc : string) : string :=
  match fuel with
  | O => acc
  | S fuel' =>
      let acc' := String (ascii_of_nat (48 + N.to_nat (n mod 10))) acc in
      if (n <? 10)%N then acc' else digits_aux fuel' (n / 10)%N acc'
  end.

Definition N_digits (n : N) : string := digits_aux (S (N.to_nat (N.log2 n))) n "".

Fixpoint zeros (k : nat) : string :=
  match k with O => "" | S k' => String "0" (zeros k') end.

(** Remove trailing zeros of the mantissa, adjusting the exponent. *)
Fixpoint normalize_aux (fuel : nat) (m : N) (e : Z) : N * Z :=
  match fuel with
  | O => (m, e)
  | S fuel' =>
      if (m =? 0)%N then (m, e)
      else if (m mod 10 =? 0)%N then normalize_aux fuel' (m / 10)%N (e + 1)%Z
      else (m, e)
  end.

Definition normalize (m : N) (e : Z) : N * Z :=
  normalize_aux (S (N.to_nat (N.log2 m))) m e.

Definition exp_digits (x : Z) : string :=
  let a := Z.to_N (Z.abs x) in
  (if (x <? 0)%Z then "-" else "+") ++
  (if (a <? 10)%N then "0" else "") ++ N_digits a.

(** [repr(x)] (= [str(x)] and [f"{x}"]): shortest form, fixed notation
    when the decimal point position [decpt] satisfies [-4 < decpt <= 16],
    scientific notation otherwise. *)
Definition py_repr (x : pyfloat) : string :=
  match x with
  | PNaN => "nan"
  | PInf neg => if neg then "-inf" else "inf"
  | PFin neg m e =>
      let sgn := if neg then "-" else "" in
      if (m =? 0)%N then sgn ++ "0.0" else
      let '(m', e') := normalize m e in
      let ds := N_digits m' in
      let n := Z.of_nat (String.length ds) in
      let decpt := (n + e')%Z in
      if ((-4 <? decpt) && (decpt <=? 16))%Z then
        if (decpt <=? 0)%Z then sgn ++ "0." ++ zeros (Z.to_nat (- decpt)) ++ ds
        else if (n <=? decpt)%Z then sgn ++ ds ++ zeros (Z.to_nat (decpt - n)) ++ ".0"
        else sgn ++ substring 0 (Z.to_nat decpt) ds ++ "."
                 ++ substring (Z.to_nat decpt) (String.length ds) ds
      else
        let mant := match ds with
                    | String d EmptyString => String d EmptyString
                    | String d rest => String d ("." ++ rest)
                    | EmptyString => EmptyString
                    end in
        sgn ++ mant ++ "e" ++ exp_digits (decpt - 1)
  end.

(** Round [m * 10^k] to an integer, half to even. *)
Definition round_half_even (m : N) (k : Z) : N :=
  if (0 <=? k)%Z then (m * 10 ^ Z.to_N k)%N
  else
    let d := (10 ^ Z.to_N (- k))%N in
    let q := (m / d)%N in
    let r := (m mod d)%N in
    match N.compare (2 * r) d with
    | Lt => q
    | Gt => q + 1
    | Eq => if N.even q then q else q + 1
    end%N.

(** [f"{x:.5f}"]: five decimals, the sign kept even when the rounded value
    is zero. *)
Definition fmt5 (x : pyfloat) : string :=
  match x with
  | PNaN => "nan"
  | PInf neg => if neg then "-inf" else "inf"
  | PFin neg m e =>
      let r := round_half_even m (e + 5) in
      let ds := N_digits r in
      let ds := zeros (6 - String.length ds) ++ ds in
      let k := String.length ds - 5 in
      (if neg then "-" else "") ++ substring 0 k ds ++ "." ++ substring k 5 ds
  end.

End PyFloat.

Import PyFloat.

(* ===================================================================== *)
(** * The regular expressions of the page-content fallback *)
(* ===================================================================== *)

Module Scrape.

(** The double-quote character. *)
Definition dq : string := String (ascii_of_nat 34) EmptyString.

Fixpoint drop (n : nat) (s : string) : string :=
  match n, s with
  | O, _ => s
  | S n', String _ s' => drop n' s'
  | S _, EmptyString => EmptyString
  end.

(** [s] with the literal prefix [p] consumed. *)
Definition after (s p : string) : option string :=
  if startswith s p then Some (drop (String.length p) s) else None.

(** Greedy [C*]: the longest prefix of characters satisfying [C]. *)
Fixpoint run (C : ascii -> bool) (s : string) : string * string :=
  match s with
  | String c s' =>
      if C c then let '(g, r) := run C s' in (String c g, r) else (EmptyString, s)
  | EmptyString => (EmptyString, EmptyString)
  end.

(** The character class [[0-9.-]]. *)
Definition num_char (c : ascii) : bool :=
  is_digit c || Ascii.eqb c "." || Ascii.eqb c "-".

Definition not_dq (c : ascii) : bool := negb (Ascii.eqb c (ascii_of_nat 34)).

(** A coordinate pattern [lit1([0-9.-]+)lit2([0-9.-]+)lit3].  The first
    character of every [lit2] and [lit3] lies outside [[0-9.-]], so the
    greedy groups never backtrack: each group is the longest run. *)
Record coord_pattern := { lit1 : string; lit2 : string; lit3 : string }.

(** The [patterns] list of process_csv_row, in order. *)
Definition patterns : list coord_pattern :=
  [ {| lit1 := dq ++ "latitude" ++ dq ++ ":"; lit2 := "," ++ dq ++ "longitude" ++ dq ++ ":"; lit3 := "" |};
    {| lit1 := "!3d"; lit2 := "!4d"; lit3 := "" |};
    {| lit1 := "@"; lit2 := ","; lit3 := "," |};
    {| lit1 := "center="; lit2 := "%2C"; lit3 := "" |};
    {| lit1 := "!3d"; lit2 := "!4d"; lit3 := "" |} ].

Definition match_at (pat : coord_pattern) (s : string) : option (string * string) :=
  match after s (lit1 pat) with
  | None => None
  | Some s1 =>
      let '(g1, s2) := run num_char s1 in
      if String.eqb g1 "" then None else
      match after s2 (lit2 pat) with
      | None => None
      | Some s3 =>
          let '(g2, s4) := run num_char s3 in
          if String.eqb g2 "" then None
          else if startswith s4 (lit3 pat) then Some (g1, g2) else None
      end
  end.

(** [re.search(pattern, s)]: groups 1 and 2 of the leftmost match. *)
Fixpoint search (pat : coord_pattern) (s : string) : option (string * string) :=
  match match_at pat s with
  | Some g => Some g
  | None => match s with
            | EmptyString => None
            | String _ s' => search pat s'
            end
  end.

(** The first pattern of [pats] that matches, with its groups. *)
Fixpoint first_match (pats : list coord_pattern) (s : string) : option (string * string) :=
  match pats with
  | [] => None
  | pat :: pats' =>
      match search pat s with
      | Some g => Some g
      | None => first_match pats' s
      end
  end.

(** Alternative 1 of the category regex: the quoted key
    featureTypeDescription, a colon, then a quoted non-empty group of
    non-quote characters. *)
Definition type_alt1 (s : string) : option string :=
  match after s (dq ++ "featureTypeDescription" ++ dq ++ ":" ++ dq) with
  | None => None
  | Some s1 =>
      let '(g, s2) := run not_dq s1 in
      if String.eqb g "" then None
      else if startswith s2 dq then Some g else None
  end.

(** Alternative 2: a quoted non-empty group of non-quote characters,
    optional spaces, a colon, optional spaces, then the quoted literal
    Point Of Interest. *)
Definition type_alt2 (s : string) : option string :=
  match after s dq with
  | None => None
  | Some s1 =>
      let '(g, s2) := run not_dq s1 in
      if String.eqb g "" then None else
      match after s2 dq with
      | None => None
      | Some s3 =>
          let '(_, s4) := run is_space s3 in
          match after s4 ":" with
          | None => None
          | Some s5 =>
              let '(_, s6) := run is_space s5 in
              if startswith s6 (dq ++ "Point Of Interest" ++ dq) then Some g else None
          end
      end
  end.

(** [next(t for t in re.findall(...)[0] if t)]: the non-empty group of
    the leftmost match (alternative 1 tried first at each position). *)
Fixpoint place_type_search (s : string) : option string :=
  match type_alt1 s with
  | Some g => Some g
  | None =>
      match type_alt2 s with
      | Some g => Some g
      | None => match s with
                | EmptyString => None
                | String _ s' => place_type_search s'
                end
      end
  end.

End Scrape.

Import Scrape.

(* ===================================================================== *)
(** * Data model of the converter *)
(* ===================================================================== *)

(** A CSV row as produced by [csv.DictReader]: column name to value. *)
Abbreviation row := (gmap string string).

(** The object returned by [requests.get(url, allow_redirects=True)]. *)
Record response := { resp_url : string; resp_text : string }.

(** A place dictionary.  [p_type] and [p_address] distinguish an absent key
    ([None]) from a key holding Python's [None] ([Some None]).  The keys
    [description] and [raw_data['phone']] read by write_kml are kept as
    fields; process_csv_row never sets them. *)
Record place := {
  p_name : string;
  p_lat : option pyfloat;
  p_lon : option pyfloat;
  p_url : string;
  p_note : string;
  p_type : option (option string);
  p_address : option (option string);
  p_description : option string;
  p_phone : option string }.

(** The value returned by process_csv_row: [None], [{'error': msg}] or a
    place dictionary. *)
Inductive row_result :=
| RNone
| RError (msg : string)
| RPlace (p : place).

(** The mutable state of a [Geocoder]: its cache, and the number of
    reverse-geocoding requests issued so far. *)
Record geocoder := { cache : gmap string (option string); requests : nat }.

(** An entry of the [failed] list of process_csv_file. *)
Record failed_loc := { f_name : string; f_url : string; f_error : string }.

(** [row.get(k, d)] *)
Definition get (r : row) (k d : string) : string :=
  match r !! k with Some v => v | None => d end.

Definition has_key (r : row) (k : string) : bool :=
  match r !! k with Some _ => true | None => false end.

Definition row_name (r : row) : string := get r "Title" (get r "Name" "").
Definition row_url (r : row) : string := get r "URL" (get r "Google Maps URL" "").
Definition row_note (r : row) : string := get r "Note" "".

Definition lat_keys : list string := ["Latitude"; "latitude"; "lat"].
Definition lon_keys : list string := ["Longitude"; "longitude"; "lon"; "lng"].

(** The value of the first key of [keys] present in the row. *)
Fixpoint first_present (r : row) (keys : list string) : option string :=
  match keys with
  | [] => None
  | k :: keys' => match r !! k with Some v => Some v | None => first_present r keys' end
  end.

(** The explicit-column loop: [None] when [float] raises [ValueError],
    [Some None] when no key is present, [Some (Some x)] otherwise. *)
Definition parse_col (r : row) (keys : list string) : option (option pyfloat) :=
  match first_present r keys with
  | None => Some None
  | Some s => match py_float s with Some x => Some (Some x) | None => None end
  end.

(* ===================================================================== *)
(** * Geocoder.reverse_geocode *)
(* ===================================================================== *)

Section Converter.

(** The network.  [fetch url] is the outcome of [requests.get(url, ...)]
    ([None]: it raised).  [geo_net n lat lon] is the outcome of the [n]-th
    reverse-geocoding request: [None] when the request, [raise_for_status]
    or [response.json()] raised, otherwise [data.get('display_name', '')]
    ([Some None] for a JSON null). *)
Variable fetch : string -> option response.
Variable geo_net : nat -> pyfloat -> pyfloat -> option (option string).

Definition cache_key (lat lon : pyfloat) : string := fmt5 lat ++ "," ++ fmt5 lon.

Definition reverse_geocode (g : geocoder) (lat lon : pyfloat) : option string * geocoder :=
  let key := cache_key lat lon in
  match cache g !! key with
  | Some v => (v, g)
  | None =>
      match geo_net (requests g) lat lon with
      | None => (None, {| cache := cache g; requests := S (requests g) |})
      | Some address =>
          (address, {| cache := <[key := address]> (cache g); requests := S (requests g) |})
      end
  end.

(* ===================================================================== *)
(** * process_csv_row *)
(* ===================================================================== *)

(** [lat = float(c0); lon = float(c1)] inside [try/except ValueError]:
    when the second conversion raises, the first assignment stays. *)
Definition try2 (c0 c1 : string) (lat lon : option pyfloat) : option pyfloat * option pyfloat :=
  match py_float c0 with
  | None => (lat, lon)
  | Some a => match py_float c1 with None => (Some a, lon) | Some b => (Some a, Some b) end
  end.

(** [coords = s.split(sep)[-1].split(',')]; [if len(coords) >= 2: try ...] *)
Definition split_coords (s sep : string) : list string := split (last_piece (split s sep)) ",".

Definition try_split (s sep : string) (lat lon : option pyfloat) : option pyfloat * option pyfloat :=
  match split_coords s sep with
  | c0 :: c1 :: _ => try2 c0 c1 lat lon
  | _ => (lat, lon)
  end.

(** The !3d/!4d branch. *)
Definition try_3d4d (url : string) (lat lon : option pyfloat) : option pyfloat * option pyfloat :=
  let lat_start := (find url "!3d" + 3)%Z in
  let lat_end := find url "!4d" in
  let lon_start := (find url "!4d" + 3)%Z in
  if (3 <? lat_start)%Z && (lat_start <? lat_end)%Z then
    try2 (slice url (Z.to_nat lat_start) (Z.to_nat lat_end))
         (first_piece (split (slice url (Z.to_nat lon_start) (Z.to_nat lon_start + 20)) "!"))
         lat lon
  else (lat, lon).

(** Outcome of the URL branch: go on to validation with the current
    [lat]/[lon], or return a place dictionary from inside the branch. *)
Inductive branch_out :=
| Continue (lat lon : option pyfloat)
| Return (p : place).

Definition redirect_place (r : row) (final_url : string) (lat lon : pyfloat) : place :=
  {| p_name := row_name r; p_lat := Some lat; p_lon := Some lon; p_url := final_url;
     p_note := row_note r; p_type := None; p_address := None;
     p_description := None; p_phone := None |}.

(** [if '@' in final_url: coords = ...; if len(coords) >= 2: try: ...;
    return {...} except ValueError: pass] *)
Definition try_redirect (r : row) (final_url : string) (lat lon : option pyfloat) : branch_out :=
  if contains final_url "@" then
    match split_coords final_url "@" with
    | c0 :: c1 :: _ =>
        match py_float c0 with
        | None => Continue lat lon
        | Some a =>
            match py_float c1 with
            | None => Continue (Some a) lon
            | Some b => Return (redirect_place r final_url a b)
            end
        end
    | _ => Continue lat lon
    end
  else Continue lat lon.

(** The maps/place/ branch, from [requests.get] to the final [return];
    an exception anywhere in it is caught by [except Exception] and leaves
    [lat]/[lon] as they were when it was raised. *)
Definition place_branch (r : row) (url : string) (lat lon : option pyfloat) : branch_out :=
  match fetch url with
  | None => Continue lat lon
  | Some response =>
      let final_url := resp_url response in
      match try_redirect r final_url lat lon with
      | Return p => Return p
      | Continue lat lon =>
      let step_b :=
        if contains url "data=!4m2!3m1!1s" && negb (String.eqb final_url url) then
          try_redirect r final_url lat lon
        else Continue lat lon in
      match step_b with
      | Return p => Return p
      | Continue lat lon =>
      let content := resp_text response in
      let ret lat lon :=
        Return {| p_name := row_name r; p_lat := lat; p_lon := lon; p_url := final_url;
                  p_note := row_note r; p_type := Some (place_type_search content);
                  p_address := None; p_description := None; p_phone := None |} in
      match lat, lon with
      | Some _, Some _ => ret lat lon
      | _, _ =>
          match first_match patterns content with
          | None => ret lat lon
          | Some (g1, g2) =>
              (* a [float] that raises here is caught by the outer
                 [except Exception], after the assignments already made *)
              match py_float g1 with
              | None => Continue lat lon
              | Some a =>
                  match py_float g2 with
                  | None => Continue (Some a) lon
                  | Some b => ret (Some a) (Some b)
                  end
              end
          end
      end
      end
      end
  end.

(** The if/elif chain on the URL. *)
Definition url_branch (r : row) (url : string) (lat lon : option pyfloat) : branch_out :=
  if contains url "maps/search/" then
    let '(la, lo) := try_split url "maps/search/" lat lon in Continue la lo
  else if contains url "!3d" && contains url "!4d" then
    let '(la, lo) := try_3d4d url lat lon in Continue la lo
  else if contains url "@" then
    let '(la, lo) := try_split url "@" lat lon in Continue la lo
  else if contains url "maps/place/" then place_branch r url lat lon
  else Continue lat lon.

(** Validation and assembly after the URL branch. *)
Definition finish (r : row) (g : option geocoder) (lat lon : option pyfloat)
  : row_result * option geocoder :=
  match lat, lon with
  | Some a, Some b =>
      if negb (in_range (-90) 90 a) || negb (in_range (-180) 180 b) then
        (RError ("Invalid coordinates " ++ py_repr a ++ "," ++ py_repr b), g)
      else
        let p := {| p_name := row_name r; p_lat := Some a; p_lon := Some b;
                    p_url := row_url r; p_note := row_note r; p_type := None;
                    p_address := None; p_description := None; p_phone := None |} in
        match g with
        | None => (RPlace p, None)
        | Some gc =>
            let '(address, gc') := reverse_geocode gc a b in
            (RPlace {| p_name := p_name p; p_lat := p_lat p; p_lon := p_lon p;
                       p_url := p_url p; p_note := p_note p; p_type := None;
                       p_address := Some address; p_description := None;
                       p_phone := None |}, Some gc')
        end
  | _, _ =>
      (RError ("Could not extract coordinates" ++
               (if has_key r "URL" || has_key r "Google Maps URL" then " from URL" else "")), g)
  end.

(** process_csv_row.  A [ValueError] from the explicit columns is caught
    by the final [except (KeyError, ValueError)], which returns [None].
    The first [place] dictionary built by the source is never returned
    and is not modelled. *)
Definition process_csv_row (r : row) (g : option geocoder) : row_result * option geocoder :=
  match parse_col r lat_keys with
  | None => (RNone, g)
  | Some lat =>
      match parse_col r lon_keys with
      | None => (RNone, g)
      | Some lon =>
          match lat, lon with
          | Some _, Some _ => finish r g lat lon
          | _, _ =>
              let url := row_url r in
              if String.eqb url "" then (RNone, g)
              else match url_branch r url lat lon with
                   | Return p => (RPlace p, g)
                   | Continue la lo => finish r g la lo
                   end
          end
      end
  end.

End Converter.

(* ===================================================================== *)
(** * get_icon_url and write_kml *)
(* ===================================================================== *)

Module Kml.

(** An XML element: tag, attributes, text and children, as built with
    [ET.Element]/[ET.SubElement]. *)
#[warnings="-register-all"]
Inductive xml := Elem (tag : string) (attrs : list (string * string)) (text : option string) (children : list xml).

Definition tag_of (x : xml) : string := let 'Elem t _ _ _ := x in t.

Definition leaf (tag text : string) : xml := Elem tag [] (Some text) [].

Definition kml_ns : string := "http://www.opengis.net/kml/2.2".

Definition icon_lodging : string := "http://maps.google.com/mapfiles/kml/pal4/icon57.png".
Definition icon_restaurant : string := "http://maps.google.com/mapfiles/kml/pal4/icon46.png".
Definition icon_bar : string := "http://maps.google.com/mapfiles/kml/pal4/icon7.png".
Definition icon_hiking : string := "http://maps.google.com/mapfiles/kml/pal4/icon13.png".
Definition icon_swimming : string := "http://maps.google.com/mapfiles/kml/pal4/icon61.png".
Definition icon_scenic : string := "http://maps.google.com/mapfiles/kml/pal4/icon38.png".
Definition icon_default : string := "http://maps.google.com/mapfiles/kml/pal4/icon49.png".

(** [any(x in t for x in keys)] *)
Definition any_in (keys : list string) (t : string) : bool := existsb (contains t) keys.

Definition get_icon_url (place_type : option string) : string :=
  match place_type with
  | None => icon_scenic
  | Some t =>
      if String.eqb t "" then icon_scenic else
      let t := lower t in
      if any_in ["hotel"; "motel"; "lodging"] t then icon_lodging
      else if any_in ["restaurant"; "cafe"; "dining"] t then icon_restaurant
      else if any_in ["bar"; "pub"] t then icon_bar
      else if any_in ["hiking"; "trail"] t then icon_hiking
      else if any_in ["swimming"; "pool"; "beach"] t then icon_swimming
      else icon_default
  end.

Inductive layer := Sleep | Eat | Do.

(** [place_type = str(place.get('type', 'Scenic spot')).lower()], with
    [''] replaced by ['scenic spot']. *)
Definition place_type_text (p : place) : string :=
  let t := match p_type p with
           | None => "Scenic spot"
           | Some None => "None"
           | Some (Some s) => s
           end in
  let t := lower t in
  if String.eqb t "" then "scenic spot" else t.

(** The layer choice of write_kml on the lowered type text. *)
Definition layer_of (place_type : string) : layer :=
  if any_in ["hotel"; "motel"; "lodging"] place_type then Sleep
  else if any_in ["restaurant"; "cafe"; "bar"; "pub"] place_type then Eat
  else Do.

(** [f"{x}"] for a coordinate that may be [None]. *)
Definition str_coord (x : option pyfloat) : string :=
  match x with Some v => py_repr v | None => "None" end.

Definition str_opt (x : option string) : string :=
  match x with Some v => v | None => "None" end.

(** The Placemark of a place in the aggregate document. *)
Definition agg_placemark (place_type : string) (p : place) : xml :=
  let desc :=
    app ["<a href=" ++ dq ++ p_url p ++ dq ++ ">View on Google Maps</a>"]
    (app match p_description p with Some d => ["<b>Notes:</b> " ++ d] | None => [] end
    (app match p_address p with Some a => ["<b>Address:</b> " ++ str_opt a] | None => [] end
         match p_phone p with Some ph => ["<b>Phone:</b> " ++ ph] | None => [] end)) in
  Elem "Placemark" [] None
    [ leaf "name" (p_name p);
      Elem "Style" [] None [Elem "IconStyle" [] None [leaf "Icon" (get_icon_url (Some place_type))]];
      Elem "Point" [] None [leaf "coordinates" (str_coord (p_lon p) ++ "," ++ str_coord (p_lat p) ++ ",0")];
      leaf "description" (String.concat "<br/>" desc) ].

(** The Placemark of a place in a layer document. *)
Definition layer_placemark (p : place) : xml :=
  let desc :=
    app ["<a href=" ++ dq ++ p_url p ++ dq ++ ">View on Google Maps</a>"]
    (app match p_description p with Some d => ["<b>Notes:</b> " ++ d] | None => [] end
    (app match p_address p with Some a => ["<b>Address:</b> " ++ str_opt a] | None => [] end
         match p_phone p with Some ph => ["<b>Phone:</b> " ++ ph] | None => [] end)) in
  let ty := match p_type p with None => None | Some t => t end in
  Elem "Placemark" [] None
    [ leaf "name" (p_name p);
      Elem "Style" [] None [Elem "IconStyle" [] None [leaf "Icon" (get_icon_url ty)]];
      Elem "Point" [] None [leaf "coordinates" (str_coord (p_lon p) ++ "," ++ str_coord (p_lat p) ++ ",0")];
      leaf "description" (String.concat "<br/>" desc) ].

(** [layers[name]]: its places and the Placemarks added to its folder. *)
Record layer_data := { ld_places : list place; ld_marks : list xml }.
Record layers := { l_sleep : layer_data; l_eat : layer_data; l_do : layer_data }.

Definition layers0 : layers :=
  let e := {| ld_places := []; ld_marks := [] |} in {| l_sleep := e; l_eat := e; l_do := e |}.

Definition layer_get (ls : layers) (l : layer) : layer_data :=
  match l with Sleep => l_sleep ls | Eat => l_eat ls | Do => l_do ls end.

Definition layer_append (ld : layer_data) (p : place) (m : xml) : layer_data :=
  {| ld_places := (ld_places ld ++ [p])%list; ld_marks := (ld_marks ld ++ [m])%list |}.

Definition layer_update (ls : layers) (l : layer) (p : place) (m : xml) : layers :=
  match l with
  | Sleep => {| l_sleep := layer_append (l_sleep ls) p m; l_eat := l_eat ls; l_do := l_do ls |}
  | Eat => {| l_sleep := l_sleep ls; l_eat := layer_append (l_eat ls) p m; l_do := l_do ls |}
  | Do => {| l_sleep := l_sleep ls; l_eat := l_eat ls; l_do := layer_append (l_do ls) p m |}
  end.

(** One iteration of [for place in places]. *)
Definition organize_step (ls : layers) (p : place) : layers :=
  let pt := place_type_text p in
  layer_update ls (layer_of pt) p (agg_placemark pt p).

Definition organize (places : list place) : layers := fold_left organize_step places layers0.

Definition newline : string := String (ascii_of_nat 10) EmptyString.

Definition failed_placemark (f : failed_loc) : xml :=
  Elem "Placemark" [] None
    [ leaf "name" (f_name f);
      leaf "description" ("URL: " ++ f_url f ++ newline ++ "Error: " ++ f_error f) ].

(** [if failed_locations:] the Failed Conversions folder. *)
Definition failed_folder (failed : list failed_loc) : list xml :=
  match failed with
  | [] => []
  | _ => [Elem "Folder" [] None
            (leaf "name" "Failed Conversions"
             :: leaf "description" "Locations that could not be converted"
             :: map failed_placemark failed)]
  end.

Definition layer_table : list (string * layer * string) :=
  [ ("Sleep", Sleep, "Hotels, motels and other lodging");
    ("Eat", Eat, "Restaurants, bars and cafes");
    ("Do", Do, "Activities and other places") ].

(** The layer document of a non-empty layer. *)
Definition layer_doc (name desc : string) (ld : layer_data) : xml :=
  Elem "kml" [("xmlns", kml_ns)] None
    [Elem "Document" [] None
       [Elem "Folder" [] None
          (leaf "name" name :: leaf "description" desc :: map layer_placemark (ld_places ld))]].

(** [for layer_name, layer_data in layers.items(): if not
    layer_data['places']: continue ...]: the layer files, in order. *)
Definition layer_files (ls : layers) : list (string * xml) :=
  flat_map (fun '(name, l, desc) =>
              let ld := layer_get ls l in
              match ld_places ld with
              | [] => []
              | _ => [(name, layer_doc name desc ld)]
              end) layer_table.

(** What write_kml produces: its return value, the aggregate document and
    the (layer name, document) pairs of the layer files, in write order.
    Pretty-printing, file names and the ZIP encodings are not modelled. *)
Record kml_output := { count : nat; aggregate : xml; layer_docs : list (string * xml) }.

Definition write_kml (places : list place) (failed : list failed_loc) : kml_output :=
  let ls := organize places in
  let document :=
    Elem "Document" [] None
      ([ Elem "Folder" [] None (ld_marks (l_sleep ls));
         Elem "Folder" [] None (ld_marks (l_eat ls));
         Elem "Folder" [] None (ld_marks (l_do ls)) ] ++ failed_folder failed)%list in
  {| count := length places;
     aggregate := Elem "kml" [("xmlns", kml_ns)] None [document];
     layer_docs := layer_files ls |}.

End Kml.

Import Kml.

(* ===================================================================== *)
(** * process_csv_file *)
(* ===================================================================== *)

Section File.

Variable fetch : string -> option response.
Variable geo_net : nat -> pyfloat -> pyfloat -> option (option string).

(** One iteration of the row loop: [if result: if 'error' in result: ...]. *)
Definition file_step (acc : list place * list failed_loc * option geocoder) (r : row)
  : list place * list failed_loc * option geocoder :=
  let '(places, failed, g) := acc in
  let '(result, g') := process_csv_row fetch geo_net r g in
  match result with
  | RNone => (places, failed, g')
  | RError msg =>
      (places, (failed ++ [{| f_name := get r "Title" (get r "Name" "Unknown");
                             f_url := row_url r; f_error := msg |}])%list, g')
  | RPlace p => ((places ++ [p])%list, failed, g')
  end.

Record file_result := { success : nat; failed_count : nat; output : kml_output; final_geocoder : option geocoder }.

(** process_csv_file on the rows read from the CSV file. *)
Definition process_csv_file (rows : list row) (g : option geocoder) : file_result :=
  let '(places, failed, g') := fold_left file_step rows ([], [], g) in
  let out := write_kml places failed in
  {| success := count out; failed_count := length failed; output := out; final_geocoder := g' |}.

End File.

(* ===================================================================== *)
(** * Observations on the produced documents and results *)
(* ===================================================================== *)

Module Obs.

(** The results of process_csv_row on successive rows, threading the
    geocoder as process_csv_file does. *)
Fixpoint resolve_rows (fetch : string -> option response)
         (geo_net : nat -> pyfloat -> pyfloat -> option (option string))
         (rows : list row) (g : option geocoder) : list row_result :=
  match rows with
  | [] => []
  | r :: rows' =>
      let '(res, g') := process_csv_row fetch geo_net r g in
      res :: resolve_rows fetch geo_net rows' g'
  end.

Definition is_place (x : row_result) : bool := match x with RPlace _ => true | _ => false end.
Definition is_error (x : row_result) : bool := match x with RError _ => true | _ => false end.

Definition has_child_tag (t : string) (ch : list xml) : bool :=
  existsb (fun c => String.eqb (tag_of c) t) ch.

(** Placemarks that carry a Point. *)
Fixpoint count_point_placemarks (x : xml) : nat :=
  let 'Elem t _ _ ch := x in
  (if String.eqb t "Placemark" && has_child_tag "Point" ch then 1 else 0) +
  (fix go (l : list xml) : nat :=
     match l with [] => 0 | c :: l' => count_point_placemarks c + go l' end) ch.

Definition is_failed_title (c : xml) : bool :=
  match c with
  | Elem t _ (Some s) _ => String.eqb t "name" && String.eqb s "Failed Conversions"
  | _ => false
  end.

(** For every Folder named Failed Conversions, the number of its entries. *)
Fixpoint failed_sections (x : xml) : list nat :=
  let 'Elem t _ _ ch := x in
  app (if String.eqb t "Folder" && existsb is_failed_title ch
       then [length (List.filter (fun c => String.eqb (tag_of c) "Placemark") ch)] else [])
      ((fix go (l : list xml) : list nat :=
          match l with [] => [] | c :: l' => app (failed_sections c) (go l') end) ch).

(** All Placemark elements of a document. *)
Fixpoint placemarks (x : xml) : list xml :=
  let 'Elem t _ _ ch := x in
  app (if String.eqb t "Placemark" then [x] else [])
      ((fix go (l : list xml) : list xml :=
          match l with [] => [] | c :: l' => app (placemarks c) (go l') end) ch).

Definition child_text (t : string) (ch : list xml) : option string :=
  match List.find (fun c => String.eqb (tag_of c) t) ch with
  | Some (Elem _ _ s _) => s
  | None => None
  end.

(** The rendered name, coordinates string and description of a Placemark. *)
Definition rendered (x : xml) : option string * option string * option string :=
  let 'Elem _ _ _ ch := x in
  let coords := match List.find (fun c => String.eqb (tag_of c) "Point") ch with
                | Some (Elem _ _ _ pch) => child_text "coordinates" pch
                | None => None
                end in
  (child_text "name" ch, coords, child_text "description" ch).

Definition layer_name (l : layer) : string :=
  match l with Sleep => "Sleep" | Eat => "Eat" | Do => "Do" end.

Definition layer_desc (l : layer) : string :=
  match l with
  | Sleep => "Hotels, motels and other lodging"
  | Eat => "Restaurants, bars and cafes"
  | Do => "Activities and other places"
  end.

Definition layer_eqb (l1 l2 : layer) : bool :=
  match l1, l2 with
  | Sleep, Sleep | Eat, Eat | Do, Do => true
  | _, _ => false
  end.

(** The layer write_kml assigns to a place is [l]. *)
Definition in_layer (l : layer) (p : place) : bool := layer_eqb (layer_of (place_type_text p)) l.

(** The Placemark of a place in the aggregate document. *)
Definition agg_mark (p : place) : xml := agg_placemark (place_type_text p) p.

End Obs.

Import Obs.


(** The results that are not None. *)
Definition is_some_result (x : row_result) : bool := match x with RNone => false | _ => true end.

(** The places among a list of results, in order. *)
Fixpoint places_of (rs : list row_result) : list place :=
  match rs with
  | [] => []
  | RPlace p :: rs' => p :: places_of rs'
  | _ :: rs' => places_of rs'
  end.

(** The entry process_csv_file appends to [failed] for an error result. *)
Definition failed_entry (r : row) (msg : string) : failed_loc :=
  {| f_name := get r "Title" (get r "Name" "Unknown"); f_url := row_url r; f_error := msg |}.

(** The failure entries of the error results, paired with their rows. *)
Fixpoint failed_of (rows : list row) (rs : list row_result) : list failed_loc :=
  match rows, rs with
  | r :: rows', RError msg :: rs' => failed_entry r msg :: failed_of rows' rs'
  | _ :: rows', _ :: rs' => failed_of rows' rs'
  | _, _ => []
  end.

(** The geocoder state after process_csv_row has run on every row. *)
Fixpoint run_rows (fetch : string -> option response)
         (geo_net : nat -> pyfloat -> pyfloat -> option (option string))
         (rows : list row) (g : option geocoder) : option geocoder :=
  match rows with
  | [] => g
  | r :: rows' => run_rows fetch geo_net rows' (snd (process_csv_row fetch geo_net r g))
  end.

(** The icon URL of a Placemark: the text of Style/IconStyle/Icon. *)
Definition icon_of (x : xml) : option string :=
  let 'Elem _ _ _ ch := x in
  match List.find (fun c => String.eqb (tag_of c) "Style") ch with
  | Some (Elem _ _ _ sch) =>
      match List.find (fun c => String.eqb (tag_of c) "IconStyle") sch with
      | Some (Elem _ _ _ ich) => child_text "Icon" ich
      | None => None
      end
  | None => None
  end.

(* ===================================================================== *)
(** * process_zip_file *)
(* ===================================================================== *)

Module Zip.

(** A ZIP archive: its members in [namelist()] order, each with the rows
    [csv.DictReader] reads from it.  UTF-8 decoding and CSV parsing are
    not modelled; the rows given for a member that is not a CSV file are
    never read. *)
Abbreviation archive := (list (string * list row)).

(** [s.endswith(suffix)] *)
Definition endswith (s suffix : string) : bool :=
  let n := String.length s in
  let k := String.length suffix in
  Nat.leb k n && String.eqb (substring (n - k) k s) suffix.

(** [filename.lower().endswith('.csv')] *)
Definition is_csv (name : string) : bool := endswith (lower name) ".csv".

(** [zf.open(name)]: [ZipFile] maps a name to the last member carrying
    it, so a duplicated name always opens its last member. *)
Definition zip_open (zf : archive) (name : string) : list row :=
  fold_left (fun acc '(n, rows) => if String.eqb n name then rows else acc) zf [].

(** [d[k] = v] on a dict: an existing key keeps its position. *)
Fixpoint dict_set {V : Type} (d : list (string * V)) (k : string) (v : V) : list (string * V) :=
  match d with
  | [] => [(k, v)]
  | (k', v') :: d' => if String.eqb k' k then (k, v) :: d' else (k', v') :: dict_set d' k v
  end.

(** [d.get(k)] *)
Definition dict_get {V : Type} (d : list (string * V)) (k : string) : option V :=
  match List.find (fun '(k', _) => String.eqb k' k) d with
  | Some (_, v) => Some v
  | None => None
  end.

Section ZipFile.

Variable fetch : string -> option response.
Variable geo_net : nat -> pyfloat -> pyfloat -> option (option string).

(** The row loop inside [with zf.open(filename)] of process_zip_file. *)
Definition zip_row_step (acc : list place * list failed_loc * option geocoder) (r : row)
  : list place * list failed_loc * option geocoder :=
  let '(places, failed, g) := acc in
  let '(result, g') := process_csv_row fetch geo_net r g in
  match result with
  | RNone => (places, failed, g')
  | RError msg =>
      (places, (failed ++ [{| f_name := get r "Title" (get r "Name" "Unknown");
                             f_url := row_url r; f_error := msg |}])%list, g')
  | RPlace p => ((places ++ [p])%list, failed, g')
  end.

(** One iteration of [for i, filename in enumerate(csv_files)]: the
    [results] dict, the documents written (keyed by member name; the
    output path built from its base name is not modelled) and the
    geocoder, shared by all the files. *)
Definition zip_file_step (zf : archive)
    (acc : list (string * nat) * list (string * kml_output) * option geocoder) (filename : string)
  : list (string * nat) * list (string * kml_output) * option geocoder :=
  let '(results, written, g) := acc in
  let '(places, failed, g') := fold_left zip_row_step (zip_open zf filename) ([], [], g) in
  let out := write_kml places failed in
  (dict_set results filename (count out), (written ++ [(filename, out)])%list, g').

(** process_zip_file of convert.py. *)
Definition process_zip_file (zf : archive) (g : option geocoder)
  : list (string * nat) * list (string * kml_output) * option geocoder :=
  let csv_files := List.filter is_csv (map fst zf) in
  fold_left (zip_file_step zf) csv_files ([], [], g).

End ZipFile.

End Zip.

Import Zip.

(* ===================================================================== *)
(** * The earlier converter, src/google_maps_to_kml.py *)
(* ===================================================================== *)

(** Its process_csv_row has the same body as the one of convert.py (which
    only adds an unused dictionary and a logging guard) and is modelled by
    [process_csv_row]; the row loop of its process_csv_file is the one of
    convert.py and is modelled by [file_step]. *)
Module Legacy.

(** The Placemark of a place: name, point, the URL as description, and an
    address element when the place has an address key. *)
Definition legacy_placemark (p : place) : xml :=
  Elem "Placemark" [] None
    (app [ leaf "name" (p_name p);
           Elem "Point" [] None [leaf "coordinates" (str_coord (p_lon p) ++ "," ++ str_coord (p_lat p) ++ ",0")];
           leaf "description" (p_url p) ]
         match p_address p with Some a => [Elem "address" [] a []] | None => [] end).

(** The [for place in places] loop; [None] is the [KeyError] raised by
    [place['name']] on an error dictionary. *)
Fixpoint legacy_marks (places : list row_result) : option (list xml) :=
  match places with
  | [] => Some []
  | RPlace p :: ps => option_map (cons (legacy_placemark p)) (legacy_marks ps)
  | _ :: _ => None
  end.

(** write_kml of google_maps_to_kml.py: the document and [len(places)],
    or [None] when it raises. *)
Definition legacy_write_kml (places : list row_result) (failed : list failed_loc) : option (xml * nat) :=
  match legacy_marks places with
  | None => None
  | Some marks =>
      Some (Elem "kml" [("xmlns", kml_ns)] None
              [Elem "Document" [] None (app marks (failed_folder failed))], length places)
  end.

Section LegacyFile.

Variable fetch : string -> option response.
Variable geo_net : nat -> pyfloat -> pyfloat -> option (option string).

(** process_csv_file of google_maps_to_kml.py: success and failed counts,
    the document, and the geocoder; [None] when it raises. *)
Definition legacy_process_csv_file (rows : list row) (g : option geocoder)
  : option (nat * nat * xml * option geocoder) :=
  let '(places, failed, g') := fold_left (file_step fetch geo_net) rows ([], [], g) in
  match legacy_write_kml (map RPlace places) failed with
  | None => None
  | Some (doc, n) => Some (n, length failed, doc, g')
  end.

(** The row loop of its process_zip_file: [if result: places.append(result)]. *)
Definition legacy_zip_row_step (acc : list row_result * option geocoder) (r : row)
  : list row_result * option geocoder :=
  let '(places, g) := acc in
  let '(result, g') := process_csv_row fetch geo_net r g in
  match result with
  | RNone => (places, g')
  | _ => ((places ++ [result])%list, g')
  end.

(** One iteration of [for filename in zf.namelist()]; [None] once an
    exception has been raised. *)
Definition legacy_zip_step (zf : archive)
    (acc : option (list (string * nat) * list (string * xml) * option geocoder)) (filename : string)
  : option (list (string * nat) * list (string * xml) * option geocoder) :=
  match acc with
  | None => None
  | Some (results, written, g) =>
      if is_csv filename then
        let '(places, g') := fold_left legacy_zip_row_step (zip_open zf filename) ([], g) in
        match legacy_write_kml places [] with
        | None => None
        | Some (doc, n) => Some (dict_set results filename n, (written ++ [(filename, doc)])%list, g')
        end
      else Some (results, written, g)
  end.

(** process_zip_file of google_maps_to_kml.py; [None] when it raises. *)
Definition legacy_process_zip_file (zf : archive) (g : option geocoder)
  : option (list (string * nat) * list (string * xml) * option geocoder) :=
  fold_left (legacy_zip_step zf) (map fst zf) (Some ([], [], g)).

End LegacyFile.

End Legacy.

Import Legacy.

(* ===================================================================== *)
(** * Concrete inputs *)
(* ===================================================================== *)

Module Inputs.

(** A network on which every request raises. *)
Definition no_fetch : string -> option response := fun _ => None.
Definition no_geo : nat -> pyfloat -> pyfloat -> option (option string) := fun _ _ _ => None.

(** A geocoding service that answers every request. *)
Definition geo_ok : nat -> pyfloat -> pyfloat -> option (option string) :=
  fun _ _ _ => Some (Some "1 Main St").

(** Short links redirect to [url ++ suffix] with an empty page. *)
Definition redirect_to (suffix : string) : string -> option response :=
  fun u => Some {| resp_url := u ++ suffix; resp_text := "" |}.

Definition row_cafe : row :=
  <["Title" := "Cafe X"]> (<["URL" := "https://maps.google.com/@40.7128,-74.0060,15z"]> ∅).
Definition row_bad : row :=
  <["Title" := "Bad"]> (<["URL" := "https://maps.google.com/@200,-74.0060,15z"]> ∅).
Definition row_no_url : row := <["Title" := "X"]> ∅.
Definition row_short_link : row :=
  <["Title" := "P"]> (<["URL" := "https://www.google.com/maps/place/P"]> ∅).
Definition row_lon_search : row :=
  <["Title" := "Q"]> (<["Longitude" := "5"]>
    (<["URL" := "https://www.google.com/maps/search/10,abc"]> ∅)).
Definition row_explicit : row :=
  <["Latitude" := "1.5"]> (<["Longitude" := "2.5"]>
    (<["URL" := "https://maps.google.com/@9,9,15z"]> ∅)).
Definition row_bad_lat : row :=
  <["Latitude" := "north"]> (<["URL" := "https://maps.google.com/@9,9,15z"]> ∅).
Definition row_lon_at : row :=
  <["Longitude" := "5"]> (<["URL" := "https://maps.google.com/@10,abc,15z"]> ∅).
Definition row_lat_link : row :=
  <["Latitude" := "7"]> (<["URL" := "https://www.google.com/maps/place/P"]> ∅).

Definition row_lat_95 : row := <["Latitude" := "95"]> (<["Longitude" := "0"]> ∅).

(** A ZIP archive with one CSV member and one other member. *)
Definition zip_a : archive := [("a.csv", [row_cafe]); ("notes.txt", [row_bad])].
Definition zip_b : archive := [("a.csv", [row_cafe]); ("notes.txt", [])].
(** A ZIP archive whose CSV member has an out-of-range row. *)
Definition zip_err : archive := [("a.csv", [row_cafe; row_bad])].

Definition place_with_type (t : option (option string)) : place :=
  {| p_name := "Fine"; p_lat := Some (PFin false 1 0); p_lon := Some (PFin false 2 0);
     p_url := ""; p_note := ""; p_type := t; p_address := None;
     p_description := None; p_phone := None |}.

Definition pf (neg : bool) (m : N) (e : Z) : pyfloat := PFin neg m e.

(** A fresh geocoder: empty cache, no request made. *)
Definition geocoder0 : geocoder := {| cache := ∅; requests := 0 |}.

(** [geocoder0] after one successful lookup of (1, 2). *)
Definition geocoder_1_2 : geocoder :=
  {| cache := <[cache_key (pf false 1 0) (pf false 2 0) := Some "1 Main St"]> ∅; requests := 1 |}.

(** Row [row_cafe] resolved with the geocoding service [geo_ok]. *)
Definition cafe_geocoded : place :=
  {| p_name := "Cafe X"; p_lat := Some (pf false 407128 (-4)); p_lon := Some (pf true 740060 (-4));
     p_url := "https://maps.google.com/@40.7128,-74.0060,15z"; p_note := ""; p_type := None;
     p_address := Some (Some "1 Main St"); p_description := None; p_phone := None |}.
Definition geocoder_cafe : geocoder :=
  {| cache := <[cache_key (pf false 407128 (-4)) (pf true 740060 (-4)) := Some "1 Main St"]> ∅;
     requests := 1 |}.
(** Row [row_short_link] whose short link redirects to .../@10,20,15z. *)
Definition short_place : place :=
  {| p_name := "P"; p_lat := Some (pf false 10 0); p_lon := Some (pf false 20 0);
     p_url := "https://www.google.com/maps/place/P/@10,20,15z"; p_note := ""; p_type := None;
     p_address := None; p_description := None; p_phone := None |}.
Definition cafe_plain : place :=
  {| p_name := "Cafe X"; p_lat := Some (pf false 407128 (-4)); p_lon := Some (pf true 740060 (-4));
     p_url := "https://maps.google.com/@40.7128,-74.0060,15z"; p_note := ""; p_type := None;
     p_address := None; p_description := None; p_phone := None |}.

End Inputs.

Import Inputs.

(* ===================================================================== *)
(** * Evaluations at concrete inputs *)
(* ===================================================================== *)

(** The two scenarios of the spec's testable properties. *)
Example cafe_x_resolves :
  fst (process_csv_row no_fetch no_geo row_cafe None)
  = RPlace {| p_name := "Cafe X"; p_lat := Some (pf false 407128 (-4));
              p_lon := Some (pf true 740060 (-4));
              p_url := "https://maps.google.com/@40.7128,-74.0060,15z"; p_note := "";
              p_type := None; p_address := None; p_description := None; p_phone := None |}.
Proof. vm_compute. reflexivity. Qed.

Example bad_is_invalid :
  fst (process_csv_row no_fetch no_geo row_bad None) = RError "Invalid coordinates 200.0,-74.006".
Proof. vm_compute. reflexivity. Qed.

(** Three rows, two resolvable and one out of range: counts (2, 1), two
    point Placemarks and one Failed Conversions section with one entry. *)
Example three_row_batch :
  let res := process_csv_file no_fetch no_geo [row_cafe; row_bad; row_cafe] None in
  success res = 2 /\ failed_count res = 1 /\
  count_point_placemarks (aggregate (output res)) = 2 /\
  failed_sections (aggregate (output res)) = [1].
Proof. vm_compute. repeat split. Qed.

(** C1 (code_bug).  A maps/place/ short link whose redirect target carries
    @200,300 makes process_csv_row return a place with latitude 200, out
    of [-90,90]; a redirect target without coordinates makes it return a
    place with no latitude at all.  Both returns happen inside the
    maps/place/ branch, before the range validation. *)
Theorem C1_short_link_place_unvalidated :
  fst (process_csv_row (redirect_to "/@200,300,15z") no_geo row_short_link None)
  = RPlace (redirect_place row_short_link "https://www.google.com/maps/place/P/@200,300,15z"
                           (pf false 200 0) (pf false 300 0))
  /\ in_range (-90) 90 (pf false 200 0) = false
  /\ match fst (process_csv_row (redirect_to "/details") no_geo row_short_link None) with
     | RPlace p => p_lat p = None /\ p_lon p = None
     | _ => False
     end.
Proof. vm_compute. repeat split. Qed.

(** C2 (counterexample).  A row without URL and without coordinates, and a
    row whose Latitude is not a number, both make process_csv_row return
    [None], not an error record; the file then counts neither. *)
Lemma C2_dropped_rows :
  fst (process_csv_row no_fetch no_geo row_no_url None) = RNone
  /\ fst (process_csv_row no_fetch no_geo row_bad_lat None) = RNone
  /\ success (process_csv_file no_fetch no_geo [row_no_url; row_bad_lat] None) = 0
  /\ failed_count (process_csv_file no_fetch no_geo [row_no_url; row_bad_lat] None) = 0.
Proof. vm_compute. repeat split. Qed.

(** C4 (code_bug).  A numeric parse failure inside the matched pattern
    does not always give an error record: (1) maps/search/10,abc with a
    Longitude column of 5 yields a place (10, 5); (2) a maps/place/ link
    redirecting to @abc,def yields a place without coordinates. *)
Theorem C4_parse_failure_yields_place :
  match fst (process_csv_row no_fetch no_geo row_lon_search None) with
  | RPlace p => p_lat p = Some (pf false 10 0) /\ p_lon p = Some (pf false 5 0)
  | _ => False
  end
  /\ match fst (process_csv_row (redirect_to "/@abc,def,15z") no_geo row_short_link None) with
     | RPlace p => p_lat p = None /\ p_lon p = None
     | _ => False
     end.
Proof. vm_compute. repeat split. Qed.

(** C5 (counterexample).  The category Fine Dining is put in the Do layer,
    not in Eat: the Eat keywords of write_kml do not include dining. *)
Lemma C5_dining_is_do :
  layer_of (place_type_text (place_with_type (Some (Some "Fine Dining")))) = Do
  /\ map fst (layer_docs (write_kml [place_with_type (Some (Some "Fine Dining"))] [])) = ["Do"].
Proof. vm_compute. split; reflexivity. Qed.

(** C6 (counterexample).  A batch without failures has no Failed
    Conversions section at all, not one with zero entries. *)
Lemma C6_no_failed_section :
  failed_count (process_csv_file no_fetch no_geo [row_cafe] None) = 0
  /\ failed_sections (aggregate (output (process_csv_file no_fetch no_geo [row_cafe] None))) = [].
Proof. vm_compute. split; reflexivity. Qed.

(** C9 (code_bug).  With only a Longitude column (5), the URL
    @10,abc,15z yields a place whose latitude 10 comes from the URL and
    whose longitude 5 comes from the column; with only a Latitude column
    (7), a maps/place/ link whose redirect carries no coordinates yields a
    place built on the lone latitude 7. *)
Theorem C9_lone_column_combined :
  match fst (process_csv_row no_fetch no_geo row_lon_at None) with
  | RPlace p => p_lat p = Some (pf false 10 0) /\ p_lon p = Some (pf false 5 0)
  | _ => False
  end
  /\ match fst (process_csv_row (redirect_to "/details") no_geo row_lat_link None) with
     | RPlace p => p_lat p = Some (pf false 7 0) /\ p_lon p = None
     | _ => False
     end.
Proof. vm_compute. repeat split. Qed.

(* ===================================================================== *)
(** * Geocoder cache *)
(* ===================================================================== *)

(** C8.  After a reverse_geocode call that returned an address, a call
    with coordinates of the same 5-decimal cache key returns that address
    and leaves the geocoder unchanged: no request is issued, whatever the
    network would answer. *)
Theorem C8_cache_hit_after_success
    (geo_net geo_net' : nat -> pyfloat -> pyfloat -> option (option string))
    (g g' : geocoder) (lat1 lon1 lat2 lon2 : pyfloat) (a : string)
    (Hfirst : reverse_geocode geo_net g lat1 lon1 = (Some a, g'))
    (Hkey : cache_key lat1 lon1 = cache_key lat2 lon2) :
  reverse_geocode geo_net' g' lat2 lon2 = (Some a, g').
Proof.
  unfold reverse_geocode in *. rewrite <- Hkey.
  destruct (cache g !! cache_key lat1 lon1) as [v|] eqn:Hc.
  - injection Hfirst as -> <-. rewrite Hc. reflexivity.
  - destruct (geo_net (requests g) lat1 lon1) as [address|]; [|discriminate].
    injection Hfirst as -> <-. simpl. rewrite lookup_insert_eq. reflexivity.
Qed.

Lemma C8_cache_hit_after_success_witness :
  reverse_geocode geo_ok geocoder0 (pf false 407128 (-4)) (pf true 74006 (-3))
    = (Some "1 Main St", {| cache := <["40.71280,-74.00600" := Some "1 Main St"]> ∅; requests := 1 |})
  /\ cache_key (pf false 407128 (-4)) (pf true 74006 (-3))
     = cache_key (pf false 40712804 (-6)) (pf true 74006001 (-6))
  /\ reverse_geocode no_geo {| cache := <["40.71280,-74.00600" := Some "1 Main St"]> ∅; requests := 1 |}
       (pf false 40712804 (-6)) (pf true 74006001 (-6))
     = (Some "1 Main St", {| cache := <["40.71280,-74.00600" := Some "1 Main St"]> ∅; requests := 1 |}).
Proof.
  assert (H1 : reverse_geocode geo_ok geocoder0 (pf false 407128 (-4)) (pf true 74006 (-3))
    = (Some "1 Main St", {| cache := <["40.71280,-74.00600" := Some "1 Main St"]> ∅; requests := 1 |}))
    by (vm_compute; reflexivity).
  assert (H2 : cache_key (pf false 407128 (-4)) (pf true 74006 (-3))
     = cache_key (pf false 40712804 (-6)) (pf true 74006001 (-6))) by (vm_compute; reflexivity).
  split; [exact H1|]. split; [exact H2|].
  exact (C8_cache_hit_after_success geo_ok no_geo _ _ _ _ _ _ _ H1 H2).
Defined.

(** C10.  On a cache miss, a request that fails (network, HTTP status or
    JSON error) returns [None] and leaves the cache as it was, so the next
    call with the same cache key issues a new request; a completed
    response, an empty address included, is cached. *)
Theorem C10_failures_not_cached
    (geo_net : nat -> pyfloat -> pyfloat -> option (option string))
    (g : geocoder) (lat lon : pyfloat)
    (Hmiss : cache g !! cache_key lat lon = None) :
  (geo_net (requests g) lat lon = None ->
     reverse_geocode geo_net g lat lon = (None, {| cache := cache g; requests := S (requests g) |})
     /\ forall lat2 lon2, cache_key lat2 lon2 = cache_key lat lon ->
          snd (reverse_geocode geo_net {| cache := cache g; requests := S (requests g) |} lat2 lon2)
          = {| cache := match geo_net (S (requests g)) lat2 lon2 with
                        | None => cache g
                        | Some v => <[cache_key lat lon := v]> (cache g)
                        end;
               requests := S (S (requests g)) |})
  /\ (forall v, geo_net (requests g) lat lon = Some v ->
        cache (snd (reverse_geocode geo_net g lat lon)) !! cache_key lat lon = Some v).
Proof.
  unfold reverse_geocode. rewrite Hmiss. split.
  - intros Hfail. rewrite Hfail. split; [reflexivity|].
    intros lat2 lon2 Hk. simpl. rewrite Hk, Hmiss.
    destruct (geo_net (S (requests g)) lat2 lon2); reflexivity.
  - intros v Hv. rewrite Hv. simpl. apply lookup_insert_eq.
Qed.

Lemma C10_failures_not_cached_witness :
  cache geocoder0 !! cache_key (pf false 1 0) (pf false 2 0) = None
  /\ (no_geo (requests geocoder0) (pf false 1 0) (pf false 2 0) = None ->
        reverse_geocode no_geo geocoder0 (pf false 1 0) (pf false 2 0)
        = (None, {| cache := cache geocoder0; requests := S (requests geocoder0) |})
        /\ forall lat2 lon2, cache_key lat2 lon2 = cache_key (pf false 1 0) (pf false 2 0) ->
             snd (reverse_geocode no_geo {| cache := cache geocoder0; requests := S (requests geocoder0) |} lat2 lon2)
             = {| cache := match no_geo (S (requests geocoder0)) lat2 lon2 with
                           | None => cache geocoder0
                           | Some v => <[cache_key (pf false 1 0) (pf false 2 0) := v]> (cache geocoder0)
                           end;
                  requests := S (S (requests geocoder0)) |})
  /\ (forall v, no_geo (requests geocoder0) (pf false 1 0) (pf false 2 0) = Some v ->
        cache (snd (reverse_geocode no_geo geocoder0 (pf false 1 0) (pf false 2 0)))
          !! cache_key (pf false 1 0) (pf false 2 0) = Some v).
Proof.
  assert (H : cache geocoder0 !! cache_key (pf false 1 0) (pf false 2 0) = None)
    by (vm_compute; reflexivity).
  split; [exact H|].
  exact (C10_failures_not_cached no_geo geocoder0 (pf false 1 0) (pf false 2 0) H).
Defined.

(* ===================================================================== *)
(** * Explicit coordinate columns and dropped rows *)
(* ===================================================================== *)

Lemma first_present_insert_ne (r : row) (keys : list string) (k v : string) :
  ~ In k keys -> first_present (<[k := v]> r) keys = first_present r keys.
Proof.
  induction keys as [|k' keys IH]; intros Hn; simpl; [reflexivity|].
  rewrite lookup_insert_ne by (intros ->; apply Hn; left; reflexivity).
  rewrite IH by (intros Hk; apply Hn; right; exact Hk). reflexivity.
Qed.

Lemma parse_col_insert_ne (r : row) (keys : list string) (k v : string) :
  ~ In k keys -> parse_col (<[k := v]> r) keys = parse_col r keys.
Proof. intros Hn. unfold parse_col. rewrite first_present_insert_ne by exact Hn. reflexivity. Qed.

Lemma url_not_coord_key (k : string) :
  In k ["URL"; "Google Maps URL"] -> ~ In k lat_keys /\ ~ In k lon_keys.
Proof.
  intros Hk. split; intros Hc;
    repeat (destruct Hk as [<-|Hk]; [|]); try contradiction;
    repeat (destruct Hc as [Hc|Hc]; [discriminate Hc|]); contradiction.
Qed.

(** When both first-present explicit columns parse and are in range, the
    row goes straight to validation and yields a place with exactly them. *)
Lemma process_explicit (fetch : string -> option response)
    (geo_net : nat -> pyfloat -> pyfloat -> option (option string))
    (r : row) (g : option geocoder) (a b : pyfloat) :
  parse_col r lat_keys = Some (Some a) -> parse_col r lon_keys = Some (Some b) ->
  in_range (-90) 90 a = true -> in_range (-180) 180 b = true ->
  match fst (process_csv_row fetch geo_net r g) with
  | RPlace p => p_lat p = Some a /\ p_lon p = Some b
  | _ => False
  end.
Proof.
  intros Hlat Hlon Ha Hb. unfold process_csv_row. rewrite Hlat, Hlon.
  unfold finish. rewrite Ha, Hb. simpl.
  destruct g as [gc|]; [destruct (reverse_geocode geo_net gc a b)|]; simpl; split; reflexivity.
Qed.

(** C3.  If the first present Latitude/latitude/lat column and the first
    present Longitude/longitude/lon/lng column parse as floats in range,
    process_csv_row returns a place with exactly these values; replacing
    the URL and Google Maps URL fields by anything, and the network by
    anything, changes neither coordinate. *)
Theorem C3_explicit_columns_win
    (fetch : string -> option response)
    (geo_net : nat -> pyfloat -> pyfloat -> option (option string))
    (r : row) (g : option geocoder) (a b : pyfloat)
    (Hlat : parse_col r lat_keys = Some (Some a))
    (Hlon : parse_col r lon_keys = Some (Some b))
    (Ha : in_range (-90) 90 a = true) (Hb : in_range (-180) 180 b = true) :
  match fst (process_csv_row fetch geo_net r g) with
  | RPlace p => p_lat p = Some a /\ p_lon p = Some b
  | _ => False
  end
  /\ forall (fetch' : string -> option response) (u u' : string),
     match fst (process_csv_row fetch' geo_net (<["URL" := u]> (<["Google Maps URL" := u']> r)) g) with
     | RPlace p => p_lat p = Some a /\ p_lon p = Some b
     | _ => False
     end.
Proof.
  split; [exact (process_explicit fetch geo_net r g a b Hlat Hlon Ha Hb)|].
  intros fetch' u u'.
  destruct (url_not_coord_key "URL") as [H1 H2]; [left; reflexivity|].
  destruct (url_not_coord_key "Google Maps URL") as [H3 H4]; [right; left; reflexivity|].
  apply process_explicit; try assumption.
  - rewrite parse_col_insert_ne, parse_col_insert_ne by assumption. exact Hlat.
  - rewrite parse_col_insert_ne, parse_col_insert_ne by assumption. exact Hlon.
Qed.

Lemma C3_explicit_columns_win_witness :
  parse_col row_explicit lat_keys = Some (Some (pf false 15 (-1)))
  /\ parse_col row_explicit lon_keys = Some (Some (pf false 25 (-1)))
  /\ in_range (-90) 90 (pf false 15 (-1)) = true
  /\ in_range (-180) 180 (pf false 25 (-1)) = true
  /\ (match fst (process_csv_row no_fetch no_geo row_explicit None) with
      | RPlace p => p_lat p = Some (pf false 15 (-1)) /\ p_lon p = Some (pf false 25 (-1))
      | _ => False
      end
      /\ forall (fetch' : string -> option response) (u u' : string),
         match fst (process_csv_row fetch' no_geo
                      (<["URL" := u]> (<["Google Maps URL" := u']> row_explicit)) None) with
         | RPlace p => p_lat p = Some (pf false 15 (-1)) /\ p_lon p = Some (pf false 25 (-1))
         | _ => False
         end).
Proof.
  assert (H1 : parse_col row_explicit lat_keys = Some (Some (pf false 15 (-1)))) by (vm_compute; reflexivity).
  assert (H2 : parse_col row_explicit lon_keys = Some (Some (pf false 25 (-1)))) by (vm_compute; reflexivity).
  assert (H3 : in_range (-90) 90 (pf false 15 (-1)) = true) by (vm_compute; reflexivity).
  assert (H4 : in_range (-180) 180 (pf false 25 (-1)) = true) by (vm_compute; reflexivity).
  refine (conj H1 (conj H2 (conj H3 (conj H4 _)))).
  exact (C3_explicit_columns_win no_fetch no_geo row_explicit None _ _ H1 H2 H3 H4).
Defined.

(** A row on which process_csv_row returns [None] leaves the loop state
    of process_csv_file unchanged. *)
Lemma file_step_none (fetch : string -> option response)
    (geo_net : nat -> pyfloat -> pyfloat -> option (option string))
    (r : row) acc :
  (forall g, process_csv_row fetch geo_net r g = (RNone, g)) ->
  file_step fetch geo_net acc r = acc.
Proof.
  intros Hr. destruct acc as [[places failed] g]. unfold file_step. rewrite Hr. reflexivity.
Qed.

(** C2 (amended).  process_csv_row returns [None] (a value, not an
    exception) when the first present explicit latitude or longitude
    column is not a number, or when the row has no URL and its explicit
    columns do not both parse; the geocoder is untouched, and
    process_csv_file gives the same result as if the row were absent:
    it is counted neither as a success nor as a failure. *)
Theorem C2_unresolvable_rows_dropped
    (fetch : string -> option response)
    (geo_net : nat -> pyfloat -> pyfloat -> option (option string))
    (r : row)
    (Hdrop : parse_col r lat_keys = None \/ parse_col r lon_keys = None \/
             (row_url r = "" /\ forall a b, parse_col r lat_keys = Some (Some a) ->
                                           parse_col r lon_keys <> Some (Some b))) :
  (forall g, process_csv_row fetch geo_net r g = (RNone, g))
  /\ (forall pre post g, process_csv_file fetch geo_net (pre ++ r :: post) g
                         = process_csv_file fetch geo_net (pre ++ post) g).
Proof.
  assert (Hr : forall g, process_csv_row fetch geo_net r g = (RNone, g)).
  { intros g. unfold process_csv_row.
    destruct Hdrop as [Hl | [Hl | [Hu Hab]]].
    - rewrite Hl. reflexivity.
    - destruct (parse_col r lat_keys) as [lat|]; [|reflexivity]. rewrite Hl. reflexivity.
    - destruct (parse_col r lat_keys) as [lat|] eqn:Hlat; [|reflexivity].
      destruct (parse_col r lon_keys) as [lon|] eqn:Hlon; [|reflexivity].
      destruct lat as [a|], lon as [b|];
        try (exfalso; exact (Hab a b eq_refl eq_refl));
        rewrite Hu; reflexivity. }
  split; [exact Hr|].
  intros pre post g. unfold process_csv_file.
  rewrite !fold_left_app. simpl. rewrite (file_step_none fetch geo_net r _ Hr). reflexivity.
Qed.

Lemma C2_unresolvable_rows_dropped_witness :
  (parse_col row_no_url lat_keys = None \/ parse_col row_no_url lon_keys = None \/
   (row_url row_no_url = "" /\ forall a b, parse_col row_no_url lat_keys = Some (Some a) ->
                                         parse_col row_no_url lon_keys <> Some (Some b)))
  /\ (forall g, process_csv_row no_fetch no_geo row_no_url g = (RNone, g))
  /\ (forall pre post g, process_csv_file no_fetch no_geo (pre ++ row_no_url :: post) g
                         = process_csv_file no_fetch no_geo (pre ++ post) g).
Proof.
  assert (H : parse_col row_no_url lat_keys = None \/ parse_col row_no_url lon_keys = None \/
   (row_url row_no_url = "" /\ forall a b, parse_col row_no_url lat_keys = Some (Some a) ->
                                         parse_col row_no_url lon_keys <> Some (Some b))).
  { right. right. split; [vm_compute; reflexivity|].
    intros a b Ha. vm_compute in Ha. discriminate Ha. }
  split; [exact H|].
  exact (C2_unresolvable_rows_dropped no_fetch no_geo row_no_url H).
Defined.

(* ===================================================================== *)
(** * Layer classification *)
(* ===================================================================== *)

(** C5 (amended).  The layer of a place is a function of its category
    text alone, lowered: Sleep if it contains hotel, motel or lodging;
    otherwise Eat if it contains restaurant, cafe, bar or pub (dining is
    not an Eat keyword); otherwise Do.  An absent, [None] or empty
    category gives Do. *)
Theorem C5_layer_classification (p : place) :
  layer_of (place_type_text p) =
  match p_type p with
  | None | Some None => Do
  | Some (Some s) =>
      let t := lower s in
      if contains t "hotel" || contains t "motel" || contains t "lodging" then Sleep
      else if contains t "restaurant" || contains t "cafe" || contains t "bar" || contains t "pub"
      then Eat
      else Do
  end.
Proof.
  unfold place_type_text.
  destruct (p_type p) as [[s|]|]; [|reflexivity|reflexivity].
  cbv zeta. destruct (String.eqb (lower s) "") eqn:He.
  - apply String.eqb_eq in He. rewrite He. reflexivity.
  - unfold layer_of, any_in. simpl existsb.
    rewrite !orb_false_r, !orb_assoc. reflexivity.
Qed.

(* ===================================================================== *)
(** * Layer organisation in write_kml *)
(* ===================================================================== *)

Lemma layer_eqb_true (l1 l2 : layer) : layer_eqb l1 l2 = true <-> l1 = l2.
Proof. destruct l1, l2; simpl; split; intros H; congruence. Qed.

Lemma layer_get_step (ls : layers) (p : place) (l : layer) :
  layer_get (organize_step ls p) l =
  if in_layer l p then layer_append (layer_get ls l) p (agg_mark p) else layer_get ls l.
Proof.
  unfold organize_step, in_layer, agg_mark.
  destruct (layer_of (place_type_text p)), l; reflexivity.
Qed.

(** After the loop, each layer holds the places of that layer, in input
    order, and their aggregate Placemarks. *)
Lemma organize_from (places : list place) (ls : layers) (l : layer) :
  layer_get (fold_left organize_step places ls) l =
  {| ld_places := ld_places (layer_get ls l) ++ List.filter (in_layer l) places;
     ld_marks := ld_marks (layer_get ls l) ++ map agg_mark (List.filter (in_layer l) places) |}.
Proof.
  revert ls. induction places as [|p places IH]; intros ls; simpl.
  - destruct (layer_get ls l) as [ps ms]. simpl. rewrite !app_nil_r. reflexivity.
  - rewrite IH, layer_get_step.
    destruct (in_layer l p); simpl; [|reflexivity].
    rewrite <- !app_assoc. reflexivity.
Qed.

Lemma organize_layer (places : list place) (l : layer) :
  layer_get (organize places) l =
  {| ld_places := List.filter (in_layer l) places;
     ld_marks := map agg_mark (List.filter (in_layer l) places) |}.
Proof. unfold organize. rewrite organize_from. destruct l; reflexivity. Qed.

Lemma filter_layers_length (places : list place) :
  length (List.filter (in_layer Sleep) places) + length (List.filter (in_layer Eat) places)
  + length (List.filter (in_layer Do) places) = length places.
Proof.
  induction places as [|p places IH]; simpl; [reflexivity|].
  destruct (in_layer Sleep p) eqn:E1, (in_layer Eat p) eqn:E2, (in_layer Do p) eqn:E3;
    simpl; try lia;
    unfold in_layer in E1, E2, E3; destruct (layer_of (place_type_text p)); discriminate.
Qed.

(* Unfolding the nested recursion on the children of an element. *)

Lemma cpp_elem t a x ch :
  count_point_placemarks (Elem t a x ch) =
  (if String.eqb t "Placemark" && has_child_tag "Point" ch then 1 else 0)
  + list_sum (map count_point_placemarks ch).
Proof.
  simpl. f_equal. all: induction ch as [|c ch IH]; simpl; [reflexivity|f_equal; exact IH].
Qed.

Lemma fs_elem t a x ch :
  failed_sections (Elem t a x ch) =
  app (if String.eqb t "Folder" && existsb is_failed_title ch
       then [length (List.filter (fun c => String.eqb (tag_of c) "Placemark") ch)] else [])
      (flat_map failed_sections ch).
Proof.
  simpl. f_equal. all: induction ch as [|c ch IH]; simpl; [reflexivity|f_equal; exact IH].
Qed.

Lemma pm_elem t a x ch :
  placemarks (Elem t a x ch) =
  app (if String.eqb t "Placemark" then [Elem t a x ch] else []) (flat_map placemarks ch).
Proof.
  simpl. f_equal. all: induction ch as [|c ch IH]; simpl; [reflexivity|f_equal; exact IH].
Qed.

Lemma cpp_agg_mark (p : place) : count_point_placemarks (agg_mark p) = 1.
Proof. reflexivity. Qed.

Lemma sum_agg_marks (ps : list place) :
  list_sum (map count_point_placemarks (map agg_mark ps)) = length ps.
Proof.
  induction ps as [|p ps IH]; [reflexivity|].
  unfold list_sum in *. simpl. rewrite IH. reflexivity.
Qed.


Lemma cpp_failed_folder (failed : list failed_loc) :
  list_sum (map count_point_placemarks (failed_folder failed)) = 0.
Proof.
  destruct failed as [|f failed]; [reflexivity|].
  simpl. induction failed as [|f' failed IH]; [reflexivity|]. simpl. simpl in IH. exact IH.
Qed.

Lemma fs_agg_marks (ps : list place) :
  existsb is_failed_title (map agg_mark ps) = false /\ flat_map failed_sections (map agg_mark ps) = [].
Proof. induction ps as [|p ps IH]; simpl; [split; reflexivity|]. exact IH. Qed.

Lemma fs_failed_folder (failed : list failed_loc) :
  flat_map failed_sections (failed_folder failed) =
  match failed with [] => [] | _ => [length failed] end.
Proof.
  destruct failed as [|f failed]; [reflexivity|].
  cbn [failed_folder flat_map]. rewrite fs_elem.
  assert (Hf : forall fs, List.filter (fun c => String.eqb (tag_of c) "Placemark") (map failed_placemark fs)
                          = map failed_placemark fs /\ flat_map failed_sections (map failed_placemark fs) = []).
  { induction fs as [|f' fs [IH1 IH2]]; [split; reflexivity|].
    cbn [map List.filter flat_map]. rewrite IH1, IH2. split; reflexivity. }
  destruct (Hf failed) as [H1 H2]. simpl. rewrite H1, H2, length_map. reflexivity.
Qed.

Lemma write_kml_points (places : list place) (failed : list failed_loc) :
  count_point_placemarks (aggregate (write_kml places failed)) = length places.
Proof.
  unfold write_kml. cbn [aggregate].
  change (l_sleep (organize places)) with (layer_get (organize places) Sleep).
  change (l_eat (organize places)) with (layer_get (organize places) Eat).
  change (l_do (organize places)) with (layer_get (organize places) Do).
  rewrite !organize_layer. cbn [ld_marks].
  rewrite cpp_elem. cbn [map]. rewrite cpp_elem, map_app, list_sum_app, cpp_failed_folder.
  cbn [map].
  rewrite !cpp_elem, !sum_agg_marks. simpl.
  pose proof (filter_layers_length places). lia.
Qed.

Lemma write_kml_failed (places : list place) (failed : list failed_loc) :
  failed_sections (aggregate (write_kml places failed)) =
  match failed with [] => [] | _ => [length failed] end.
Proof.
  unfold write_kml. cbn [aggregate].
  change (l_sleep (organize places)) with (layer_get (organize places) Sleep).
  change (l_eat (organize places)) with (layer_get (organize places) Eat).
  change (l_do (organize places)) with (layer_get (organize places) Do).
  rewrite !organize_layer. cbn [ld_marks].
  rewrite fs_elem. cbn [flat_map]. rewrite fs_elem, flat_map_app, fs_failed_folder.
  cbn [flat_map].
  rewrite !fs_elem.
  destruct (fs_agg_marks (List.filter (in_layer Sleep) places)) as [-> ->].
  destruct (fs_agg_marks (List.filter (in_layer Eat) places)) as [-> ->].
  destruct (fs_agg_marks (List.filter (in_layer Do) places)) as [-> ->].
  simpl. destruct failed; reflexivity.
Qed.

(* ===================================================================== *)
(** * Counts of process_csv_file *)
(* ===================================================================== *)

(** The loop of process_csv_file adds one place per place result and one
    failure per error result. *)
Lemma fold_file_counts (fetch : string -> option response)
    (geo_net : nat -> pyfloat -> pyfloat -> option (option string))
    (rows : list row) (P : list place) (F : list failed_loc) (g : option geocoder) :
  length (fst (fst (fold_left (file_step fetch geo_net) rows (P, F, g))))
    = length P + length (List.filter is_place (resolve_rows fetch geo_net rows g))
  /\ length (snd (fst (fold_left (file_step fetch geo_net) rows (P, F, g))))
    = length F + length (List.filter is_error (resolve_rows fetch geo_net rows g)).
Proof.
  revert P F g. induction rows as [|r rows IH]; intros P F g.
  - simpl. lia.
  - cbn [fold_left resolve_rows].
    cbn [file_step].
    destruct (process_csv_row fetch geo_net r g) as [res g1].
    destruct res as [|msg|p]; cbn [List.filter is_place is_error].
    + exact (IH P F g1).
    + destruct (IH P (F ++ [{| f_name := get r "Title" (get r "Name" "Unknown");
                               f_url := row_url r; f_error := msg |}])%list g1) as [H1 H2].
      rewrite H1, H2, length_app. cbn [length]. split; lia.
    + destruct (IH (P ++ [p])%list F g1) as [H1 H2].
      rewrite H1, H2, length_app. cbn [length]. split; lia.
Qed.

(** C6 (amended).  For every batch, with [s] the rows resolved to places
    and [f] the rows resolved to error records: the returned success count
    is [s], the failure count is [f], the aggregate document has exactly
    [s] point Placemarks, and it has a Failed Conversions section, with
    exactly [f] entries, only when [f > 0] (none at all when [f = 0]). *)
Theorem C6_batch_counts
    (fetch : string -> option response)
    (geo_net : nat -> pyfloat -> pyfloat -> option (option string))
    (rows : list row) (g : option geocoder) :
  let res := process_csv_file fetch geo_net rows g in
  let s := length (List.filter is_place (resolve_rows fetch geo_net rows g)) in
  let f := length (List.filter is_error (resolve_rows fetch geo_net rows g)) in
  success res = s /\ failed_count res = f
  /\ count_point_placemarks (aggregate (output res)) = s
  /\ failed_sections (aggregate (output res)) = (if Nat.eqb f 0 then [] else [f]).
Proof.
  cbv zeta. unfold process_csv_file.
  pose proof (fold_file_counts fetch geo_net rows [] [] g) as Hc.
  destruct (fold_left (file_step fetch geo_net) rows ([], [], g)) as [[P F] g'].
  cbn [fst snd length] in Hc. destruct Hc as [HP HF]. cbn [success failed_count output].
  rewrite write_kml_points, write_kml_failed. simpl in HP, HF. rewrite <- HP, <- HF.
  split; [reflexivity|]. split; [reflexivity|]. split; [reflexivity|].
  destruct F; reflexivity.
Qed.

(* ===================================================================== *)
(** * Aggregate and layer documents *)
(* ===================================================================== *)

Lemma pm_child t a x ch c y :
  In c ch -> In y (placemarks c) -> In y (placemarks (Elem t a x ch)).
Proof.
  intros Hc Hy. rewrite pm_elem. apply in_or_app. right.
  apply in_flat_map. exists c. split; assumption.
Qed.

Lemma pm_self a x ch : In (Elem "Placemark" a x ch) (placemarks (Elem "Placemark" a x ch)).
Proof. rewrite pm_elem. simpl. left. reflexivity. Qed.

Lemma pm_agg_mark (p : place) : In (agg_mark p) (placemarks (agg_mark p)).
Proof. apply pm_self. Qed.

Lemma pm_layer_placemark (p : place) : In (layer_placemark p) (placemarks (layer_placemark p)).
Proof. apply pm_self. Qed.

(** The layer files are the documents of the non-empty layers. *)
Lemma layer_files_spec (ls : layers) (name : string) (d : xml) :
  In (name, d) (layer_files ls) <->
  exists l, name = layer_name l /\ d = layer_doc (layer_name l) (layer_desc l) (layer_get ls l)
            /\ ld_places (layer_get ls l) <> [].
Proof.
  unfold layer_files. split.
  - intros H. apply in_flat_map in H as [[[n l] ds] [Ht Hm]].
    simpl in Ht. destruct Ht as [E|[E|[E|[]]]]; inversion E; subst;
      destruct (ld_places (layer_get ls _)) eqn:Ep; try contradiction;
      destruct Hm as [Hm|[]]; inversion Hm; subst.
    + exists Sleep. rewrite Ep. split; [reflexivity|]. split; [reflexivity|]. discriminate.
    + exists Eat. rewrite Ep. split; [reflexivity|]. split; [reflexivity|]. discriminate.
    + exists Do. rewrite Ep. split; [reflexivity|]. split; [reflexivity|]. discriminate.
  - intros [l [-> [-> Hne]]]. apply in_flat_map.
    exists (layer_name l, l, layer_desc l). split; [destruct l; simpl; tauto|].
    simpl. destruct (ld_places (layer_get ls l)) eqn:E; [congruence|].
    left. reflexivity.
Qed.

Lemma pm_layer_doc (name desc : string) (ld : layer_data) (p : place) :
  In p (ld_places ld) -> In (layer_placemark p) (placemarks (layer_doc name desc ld)).
Proof.
  intros H. unfold layer_doc.
  eapply pm_child; [left; reflexivity|].
  eapply pm_child; [left; reflexivity|].
  eapply pm_child; [right; right; apply in_map; exact H|].
  apply pm_layer_placemark.
Qed.

Lemma in_organize (places : list place) (p : place) (l : layer) :
  In p (ld_places (layer_get (organize places) l)) <-> In p places /\ layer_of (place_type_text p) = l.
Proof.
  rewrite organize_layer. cbn [ld_places]. rewrite List.filter_In.
  unfold in_layer. rewrite layer_eqb_true. reflexivity.
Qed.

Lemma agg_in_folder (places : list place) (p : place) :
  In p places ->
  In (agg_mark p) (ld_marks (layer_get (organize places) (layer_of (place_type_text p)))).
Proof.
  intros H. rewrite organize_layer. cbn [ld_marks]. apply in_map.
  apply List.filter_In. split; [exact H|]. unfold in_layer. apply layer_eqb_true. reflexivity.
Qed.

(** C7.  Let [p] be a place given to write_kml and [l] the layer assigned
    to it.  Its Placemark is among the Placemarks of the aggregate
    document; the document of layer [l] is among the layer files written
    (the layer is non-empty) and holds the layer Placemark of [p]; [p] is
    among the places of layer [l] and of no other layer; every layer file
    written is the document of one layer built from that layer's places;
    and the two Placemarks of [p] render the same name, coordinates string
    and description. *)
Theorem C7_layer_roundtrip (places : list place) (failed : list failed_loc) (p : place)
    (Hin : In p places) :
  let out := write_kml places failed in
  let ls := organize places in
  let l := layer_of (place_type_text p) in
  In (agg_mark p) (placemarks (aggregate out))
  /\ In (layer_name l, layer_doc (layer_name l) (layer_desc l) (layer_get ls l)) (layer_docs out)
  /\ In (layer_placemark p) (placemarks (layer_doc (layer_name l) (layer_desc l) (layer_get ls l)))
  /\ (forall l', In p (ld_places (layer_get ls l')) <-> l' = l)
  /\ (forall name d, In (name, d) (layer_docs out) ->
        exists l', name = layer_name l' /\ d = layer_doc (layer_name l') (layer_desc l') (layer_get ls l'))
  /\ rendered (agg_mark p) = rendered (layer_placemark p).
Proof.
  cbv zeta.
  assert (Hp : In p (ld_places (layer_get (organize places) (layer_of (place_type_text p))))).
  { apply in_organize. split; [exact Hin | reflexivity]. }
  split; [|split; [|split; [|split; [|split]]]].
  - unfold write_kml. cbn [aggregate].
    eapply pm_child; [left; reflexivity|].
    pose proof (agg_in_folder places p Hin) as Hm.
    destruct (layer_of (place_type_text p)).
    + eapply pm_child; [left; reflexivity|].
      eapply pm_child; [exact Hm|]. apply pm_agg_mark.
    + eapply pm_child; [right; left; reflexivity|].
      eapply pm_child; [exact Hm|]. apply pm_agg_mark.
    + eapply pm_child; [right; right; left; reflexivity|].
      eapply pm_child; [exact Hm|]. apply pm_agg_mark.
  - unfold write_kml. cbn [layer_docs]. apply layer_files_spec.
    eexists. split; [reflexivity|]. split; [reflexivity|].
    intros E. rewrite E in Hp. contradiction.
  - apply pm_layer_doc. exact Hp.
  - intros l'. rewrite in_organize. split.
    + intros [_ E]. symmetry. exact E.
    + intros ->. split; [exact Hin | reflexivity].
  - intros name d H. unfold write_kml in H. cbn [layer_docs] in H.
    apply layer_files_spec in H as [l' [E1 [E2 _]]]. exists l'. split; assumption.
  - reflexivity.
Qed.

(** A batch with a bar and a museum: the bar lands in the Eat document. *)
Lemma C7_layer_roundtrip_witness :
  let places := [place_with_type (Some (Some "Bar")); place_with_type (Some (Some "museum"))] in
  In (place_with_type (Some (Some "Bar"))) places /\
  (let out := write_kml places [] in
   let ls := organize places in
   let p := place_with_type (Some (Some "Bar")) in
   let l := layer_of (place_type_text p) in
   In (agg_mark p) (placemarks (aggregate out))
   /\ In (layer_name l, layer_doc (layer_name l) (layer_desc l) (layer_get ls l)) (layer_docs out)
   /\ In (layer_placemark p) (placemarks (layer_doc (layer_name l) (layer_desc l) (layer_get ls l)))
   /\ (forall l', In p (ld_places (layer_get ls l')) <-> l' = l)
   /\ (forall name d, In (name, d) (layer_docs out) ->
         exists l', name = layer_name l' /\ d = layer_doc (layer_name l') (layer_desc l') (layer_get ls l'))
   /\ rendered (agg_mark p) = rendered (layer_placemark p)).
Proof.
  cbv zeta. split.
  - simpl. left. reflexivity.
  - apply (C7_layer_roundtrip _ [] _). simpl. left. reflexivity.
Defined.

(* ===================================================================== *)
(** * Further properties: the geocoder and process_csv_row *)
(* ===================================================================== *)

(** X1.  A reverse_geocode call never changes nor removes a cache entry.
    On a cache hit it returns the cached value and leaves the geocoder as
    it was; on a miss it issues exactly one request. *)
Theorem reverse_geocode_cache_grows
    (geo_net : nat -> pyfloat -> pyfloat -> option (option string))
    (g g' : geocoder) (lat lon : pyfloat) (v : option string)
    (H : reverse_geocode geo_net g lat lon = (v, g')) :
  (forall k w, cache g !! k = Some w -> cache g' !! k = Some w)
  /\ ((cache g !! cache_key lat lon = Some v /\ g' = g)
      \/ (cache g !! cache_key lat lon = None /\ requests g' = S (requests g))).
Proof.
  unfold reverse_geocode in H.
  destruct (cache g !! cache_key lat lon) as [w0|] eqn:Hc.
  - injection H as <- <-. split; [tauto|]. left. split; reflexivity.
  - destruct (geo_net (requests g) lat lon) as [address|]; injection H as <- <-; simpl.
    + split; [|right; split; reflexivity].
      intros k w Hk. destruct (decide (k = cache_key lat lon)) as [->|Hne].
      * rewrite Hc in Hk. discriminate.
      * rewrite lookup_insert_ne by congruence. exact Hk.
    + split; [tauto|]. right. split; reflexivity.
Qed.

Lemma row_url_has_key (r : row) :
  row_url r <> "" -> (has_key r "URL" || has_key r "Google Maps URL") = true.
Proof.
  unfold row_url, get, has_key.
  destruct (r !! "URL"); [reflexivity|].
  destruct (r !! "Google Maps URL"); [reflexivity|]. intros H. congruence.
Qed.

(** The outcomes of the validation step. *)
Lemma finish_spec
    (geo_net : nat -> pyfloat -> pyfloat -> option (option string))
    (r : row) (g : option geocoder) (la lo : option pyfloat) (res : row_result) (g' : option geocoder)
    (H : finish geo_net r g la lo = (res, g')) :
  (g' = g /\ (la = None \/ lo = None) /\
   res = RError ("Could not extract coordinates" ++
                 (if has_key r "URL" || has_key r "Google Maps URL" then " from URL" else "")))
  \/ (exists a b, g' = g /\ la = Some a /\ lo = Some b /\
        (in_range (-90) 90 a = false \/ in_range (-180) 180 b = false) /\
        res = RError ("Invalid coordinates " ++ py_repr a ++ "," ++ py_repr b))
  \/ (exists p a b, res = RPlace p /\ la = Some a /\ lo = Some b /\
        in_range (-90) 90 a = true /\ in_range (-180) 180 b = true /\
        p_lat p = Some a /\ p_lon p = Some b /\ p_url p = row_url r /\ p_name p = row_name r /\
        p_type p = None /\
        ((g = None /\ g' = None /\ p_address p = None)
         \/ exists gc gc' addr, g = Some gc /\ g' = Some gc' /\ p_address p = Some addr /\
                               reverse_geocode geo_net gc a b = (addr, gc'))).
Proof.
  unfold finish in H. destruct la as [a|], lo as [b|];
    try (injection H as <- <-; left; split; [reflexivity|]; split; [tauto|reflexivity]).
  destruct (in_range (-90) 90 a) eqn:Ha, (in_range (-180) 180 b) eqn:Hb; simpl in H;
    try (injection H as <- <-; right; left; exists a, b;
         split; [reflexivity|]; split; [reflexivity|]; split; [reflexivity|];
         split; [tauto|reflexivity]).
  right; right. destruct g as [gc|].
  - destruct (reverse_geocode geo_net gc a b) as [addr gc'] eqn:Hg. injection H as <- <-.
    eexists; exists a, b. repeat (split; [first [reflexivity | assumption]|]). right. exists gc, gc', addr.
    split; [reflexivity|]. split; [reflexivity|]. split; [reflexivity|]. exact Hg.
  - injection H as <- <-. eexists; exists a, b. repeat (split; [first [reflexivity | assumption]|]). left. tauto.
Qed.

Lemma try_redirect_return (r : row) (u : string) (la lo : option pyfloat) (p : place) :
  try_redirect r u la lo = Return p -> p_address p = None.
Proof.
  unfold try_redirect. intros H.
  repeat (match type of H with context [match ?x with _ => _ end] => destruct x end);
    try discriminate.
  injection H as <-. reflexivity.
Qed.

Lemma place_branch_return (fetch : string -> option response) (r : row) (u : string)
    (la lo : option pyfloat) (p : place) :
  place_branch fetch r u la lo = Return p -> p_address p = None.
Proof.
  unfold place_branch. cbv zeta. intros H.
  destruct (fetch u) as [resp|]; [|discriminate].
  destruct (try_redirect r (resp_url resp) la lo) as [la1 lo1|p1] eqn:E1;
    [|injection H as <-; exact (try_redirect_return _ _ _ _ _ E1)].
  destruct (contains u "data=!4m2!3m1!1s" && negb (String.eqb (resp_url resp) u)).
  - destruct (try_redirect r (resp_url resp) la1 lo1) as [la2 lo2|p2] eqn:E2;
      [|injection H as <-; exact (try_redirect_return _ _ _ _ _ E2)].
    repeat (match type of H with context [match ?x with _ => _ end] => destruct x end);
      try discriminate; injection H as <-; reflexivity.
  - repeat (match type of H with context [match ?x with _ => _ end] => destruct x end);
      try discriminate; injection H as <-; reflexivity.
Qed.

(** The URL chain returns a place from inside itself only in the
    maps/place/ branch, and that place has no address. *)
Lemma url_branch_return (fetch : string -> option response) (r : row) (u : string)
    (la lo : option pyfloat) (p : place) :
  url_branch fetch r u la lo = Return p ->
  contains u "maps/place/" = true /\ p_address p = None.
Proof.
  unfold url_branch. intros H.
  destruct (contains u "maps/search/").
  { destruct (try_split u "maps/search/" la lo). discriminate. }
  destruct (contains u "!3d" && contains u "!4d").
  { destruct (try_3d4d u la lo). discriminate. }
  destruct (contains u "@").
  { destruct (try_split u "@" la lo). discriminate. }
  destruct (contains u "maps/place/"); [|discriminate].
  split; [reflexivity|]. exact (place_branch_return _ _ _ _ _ _ H).
Qed.

(** The outcomes of process_csv_row. *)
Lemma process_csv_row_spec (fetch : string -> option response)
    (geo_net : nat -> pyfloat -> pyfloat -> option (option string))
    (r : row) (g : option geocoder) (res : row_result) (g' : option geocoder)
    (H : process_csv_row fetch geo_net r g = (res, g')) :
  (res = RNone /\ g' = g)
  \/ (exists p, res = RPlace p /\ g' = g /\ p_address p = None /\
               contains (row_url r) "maps/place/" = true)
  \/ (exists la lo, finish geo_net r g la lo = (res, g') /\
        ((exists a b, la = Some a /\ lo = Some b /\
                      parse_col r lat_keys = Some (Some a) /\ parse_col r lon_keys = Some (Some b))
         \/ (row_url r <> "" /\ contains (row_url r) "maps/place/" = false ->
             url_branch fetch r (row_url r) (match parse_col r lat_keys with Some x => x | None => None end)
                                            (match parse_col r lon_keys with Some x => x | None => None end)
             = Continue la lo)
            /\ row_url r <> "")).
Proof.
  unfold process_csv_row in H.
  destruct (parse_col r lat_keys) as [lat|] eqn:Hlat; [|injection H as <- <-; left; tauto].
  destruct (parse_col r lon_keys) as [lon|] eqn:Hlon; [|injection H as <- <-; left; tauto].
  assert (Hurl : match lat, lon with Some _, Some _ => False | _, _ => True end ->
            (if String.eqb (row_url r) "" then (RNone, g)
             else match url_branch fetch r (row_url r) lat lon with
                  | Return p => (RPlace p, g)
                  | Continue la lo => finish geo_net r g la lo
                  end) = (res, g') ->
            (res = RNone /\ g' = g)
            \/ (exists p, res = RPlace p /\ g' = g /\ p_address p = None /\
                         contains (row_url r) "maps/place/" = true)
            \/ (exists la lo, finish geo_net r g la lo = (res, g') /\
                  ((exists a b, la = Some a /\ lo = Some b /\
                      Some lat = Some (Some a) /\ Some lon = Some (Some b))
                   \/ (row_url r <> "" /\ contains (row_url r) "maps/place/" = false ->
                       url_branch fetch r (row_url r) lat lon = Continue la lo) /\ row_url r <> ""))).
  { intros _ H'. destruct (String.eqb (row_url r) "") eqn:Hu; [injection H' as <- <-; left; tauto|].
    apply String.eqb_neq in Hu.
    destruct (url_branch fetch r (row_url r) lat lon) as [la lo|p] eqn:Hb.
    - right; right. exists la, lo. split; [exact H'|]. right. split; [intros _; reflexivity|exact Hu].
    - injection H' as <- <-. right; left. exists p.
      destruct (url_branch_return _ _ _ _ _ _ Hb) as [Hc Ha]. tauto. }
  destruct lat as [a|], lon as [b|].
  - right; right. exists (Some a), (Some b). split; [exact H|]. left. exists a, b. tauto.
  - exact (Hurl I H).
  - exact (Hurl I H).
  - exact (Hurl I H).
Qed.

(** X2.  Every error record of process_csv_row carries one of two messages.
    The first is Could not extract coordinates from URL; the bare message
    without from URL is never produced.  The second is Invalid coordinates
    with the repr of both values, at least one of them out of range.  An
    error leaves the geocoder untouched. *)
Theorem process_csv_row_errors (fetch : string -> option response)
    (geo_net : nat -> pyfloat -> pyfloat -> option (option string))
    (r : row) (g : option geocoder) (msg : string) (g' : option geocoder)
    (H : process_csv_row fetch geo_net r g = (RError msg, g')) :
  g' = g /\
  (msg = "Could not extract coordinates from URL"
   \/ exists a b, msg = "Invalid coordinates " ++ py_repr a ++ "," ++ py_repr b /\
                  (in_range (-90) 90 a = false \/ in_range (-180) 180 b = false)).
Proof.
  destruct (process_csv_row_spec _ _ _ _ _ _ H) as [[E _]|[[p [E _]]|[la [lo [Hf Hcase]]]]];
    try discriminate.
  destruct (finish_spec _ _ _ _ _ _ _ Hf) as [[Hg [Hn Hm]]|[[a [b [Hg [Ha [Hb [Hout Hm]]]]]]|Hp]].
  - split; [exact Hg|]. left.
    destruct Hcase as [[a [b [Ha [Hb _]]]]|[_ Hu]].
    + subst la lo. destruct Hn; discriminate.
    + rewrite (row_url_has_key r Hu) in Hm. injection Hm as ->. reflexivity.
  - injection Hm as ->. split; [exact Hg|]. right. exists a, b. split; [reflexivity|exact Hout].
  - destruct Hp as [p [a [b [Hp _]]]]. discriminate.
Qed.

Lemma url_branch_return_place (fetch : string -> option response) (r : row) (u : string)
    (la lo : option pyfloat) (p : place) :
  url_branch fetch r u la lo = Return p ->
  contains u "maps/search/" = false /\ (contains u "!3d" && contains u "!4d") = false
  /\ contains u "@" = false /\ contains u "maps/place/" = true
  /\ place_branch fetch r u la lo = Return p.
Proof.
  unfold url_branch. intros H.
  destruct (contains u "maps/search/").
  { destruct (try_split u "maps/search/" la lo). discriminate. }
  destruct (contains u "!3d" && contains u "!4d").
  { destruct (try_3d4d u la lo). discriminate. }
  destruct (contains u "@").
  { destruct (try_split u "@" la lo). discriminate. }
  destruct (contains u "maps/place/"); [|discriminate].
  tauto.
Qed.

Lemma finish_some_address (geo_net : nat -> pyfloat -> pyfloat -> option (option string))
    (r : row) (gc : geocoder) (la lo : option pyfloat) (p : place) (g' : option geocoder) :
  finish geo_net r (Some gc) la lo = (RPlace p, g') -> p_address p <> None.
Proof.
  intros H.
  destruct (finish_spec _ _ _ _ _ _ _ H) as [[_ [_ E]]|[[a [b [_ [_ [_ [_ E]]]]]]|Hp]];
    [discriminate|discriminate|].
  destruct Hp as (p0 & a & b & E & _ & _ & _ & _ & _ & _ & _ & _ & _ & Hgeo).
  injection E as <-.
  destruct Hgeo as [[E _]|(gc0 & gc' & addr & _ & _ & Ha & _)]; [discriminate|congruence].
Qed.

Lemma place_without_address (fetch : string -> option response)
    (geo_net : nat -> pyfloat -> pyfloat -> option (option string))
    (r : row) (g : option geocoder) (p : place) (g' : option geocoder)
    (H : process_csv_row fetch geo_net r g = (RPlace p, g'))
    (Hg : g <> None) (Ha : p_address p = None) :
  exists la lo, url_branch fetch r (row_url r) la lo = Return p
    /\ contains (row_url r) "maps/search/" = false
    /\ (contains (row_url r) "!3d" && contains (row_url r) "!4d") = false
    /\ contains (row_url r) "@" = false
    /\ contains (row_url r) "maps/place/" = true
    /\ place_branch fetch r (row_url r) la lo = Return p.
Proof.
  destruct g as [gc|]; [|congruence].
  assert (Hfin : forall la lo, finish geo_net r (Some gc) la lo = (RPlace p, g') -> False)
    by (intros la lo Hf; exact (finish_some_address _ _ _ _ _ _ _ Hf Ha)).
  unfold process_csv_row in H.
  destruct (parse_col r lat_keys) as [lat|]; [|discriminate].
  destruct (parse_col r lon_keys) as [lon|]; [|discriminate].
  destruct lat as [a|], lon as [b|]; try (exfalso; exact (Hfin _ _ H)).
  all: destruct (String.eqb (row_url r) ""); [discriminate|].
  all: destruct (url_branch fetch r (row_url r) _ _) as [la lo|p0] eqn:Hb;
         [exfalso; exact (Hfin _ _ H)|].
  all: injection H as <- _; do 2 eexists; split; [exact Hb|];
         exact (url_branch_return_place _ _ _ _ _ _ Hb).
Qed.

(** X3.  process_csv_row changes the geocoder only through one
    reverse_geocode call on the coordinates of the place it returns, and
    the result of that call becomes the place's address.  Without a
    geocoder no place has an address.  With one, the only places left
    without an address are those returned from inside the maps/place/
    branch: the URL matched none of maps/search/, !3d with !4d, or @,
    contains maps/place/, and place_branch returned the place. *)
Theorem process_csv_row_geocoder (fetch : string -> option response)
    (geo_net : nat -> pyfloat -> pyfloat -> option (option string))
    (r : row) (g : option geocoder) (res : row_result) (g' : option geocoder)
    (H : process_csv_row fetch geo_net r g = (res, g')) :
  (g' = g \/ exists gc gc' p a b addr,
                g = Some gc /\ g' = Some gc' /\ res = RPlace p /\ p_lat p = Some a /\
                p_lon p = Some b /\ p_address p = Some addr /\
                reverse_geocode geo_net gc a b = (addr, gc'))
  /\ (forall p, res = RPlace p -> g = None -> p_address p = None)
  /\ (forall p, res = RPlace p -> g <> None -> p_address p = None ->
        exists la lo, url_branch fetch r (row_url r) la lo = Return p
          /\ contains (row_url r) "maps/search/" = false
          /\ (contains (row_url r) "!3d" && contains (row_url r) "!4d") = false
          /\ contains (row_url r) "@" = false
          /\ contains (row_url r) "maps/place/" = true
          /\ place_branch fetch r (row_url r) la lo = Return p).
Proof.
  split; [|split]; [| |intros p Hp Hg Ha; subst res; exact (place_without_address _ _ _ _ _ _ H Hg Ha)].
  - destruct (process_csv_row_spec _ _ _ _ _ _ H) as [[_ ->]|[[p [_ [-> _]]]|[la [lo [Hf _]]]]];
      [left; reflexivity|left; reflexivity|].
    destruct (finish_spec _ _ _ _ _ _ _ Hf) as [[Hg _]|[[a [b [Hg _]]]|Hp]]; [left; exact Hg|left; exact Hg|].
    destruct Hp as (p & a & b & -> & _ & _ & _ & _ & Hla & Hlo & _ & _ & _ & Hgeo).
    destruct Hgeo as [[-> [-> _]]|[gc [gc' [addr [-> [-> [Haddr Hrg]]]]]]]; [left; reflexivity|].
    right. exists gc, gc', p, a, b, addr. tauto.
  - intros p -> Hg. destruct g as [gc|]; [discriminate|].
    destruct (process_csv_row_spec _ _ _ _ _ _ H) as [[E _]|[[p' [E [_ [Ha _]]]]|[la [lo [Hf _]]]]];
      [discriminate|injection E as <-; exact Ha|].
    destruct (finish_spec _ _ _ _ _ _ _ Hf) as [[_ [_ E]]|[[a [b [_ [_ [_ [_ E]]]]]]|Hp]];
      [discriminate|discriminate|].
    destruct Hp as (p' & a & b & E & _ & _ & _ & _ & _ & _ & _ & _ & _ & Hgeo).
    injection E as <-. destruct Hgeo as [[_ [_ Hn]]|(gc & gc' & addr & E & _)]; [exact Hn|discriminate].
Qed.

(** X4.  A place returned by process_csv_row for a row whose URL does not
    contain maps/place/ has both coordinates.  They are in range, so
    finite, and the place carries the row's URL and no category. *)
Theorem process_csv_row_place_validated (fetch : string -> option response)
    (geo_net : nat -> pyfloat -> pyfloat -> option (option string))
    (r : row) (g : option geocoder) (p : place) (g' : option geocoder)
    (H : process_csv_row fetch geo_net r g = (RPlace p, g'))
    (Hnp : contains (row_url r) "maps/place/" = false) :
  exists a b, p_lat p = Some a /\ p_lon p = Some b /\
              in_range (-90) 90 a = true /\ in_range (-180) 180 b = true /\
              p_url p = row_url r /\ p_type p = None.
Proof.
  destruct (process_csv_row_spec _ _ _ _ _ _ H) as [[E _]|[[p' [_ [_ [_ Hc]]]]|[la [lo [Hf _]]]]].
  - discriminate.
  - congruence.
  - destruct (finish_spec _ _ _ _ _ _ _ Hf) as [[_ [_ E]]|[[a [b [_ [_ [_ [_ E]]]]]]|Hp]];
      try discriminate.
    destruct Hp as (p' & a & b & E & _ & _ & Ha & Hb & Hla & Hlo & Hu & _ & Ht & _).
    injection E as <-. exists a, b. tauto.
Qed.

Lemma url_branch_fetch (fetch fetch' : string -> option response) (r : row) (u : string)
    (la lo : option pyfloat) :
  contains u "maps/place/" = false -> url_branch fetch r u la lo = url_branch fetch' r u la lo.
Proof. intros Hnp. unfold url_branch. rewrite Hnp. reflexivity. Qed.

(** X5.  process_csv_row fetches the row's URL with requests.get only
    for a row whose URL contains maps/place/: for any other row its
    result and geocoder do not depend on what that HTTP request returns.
    The geocoding service, a separate network access, is held fixed. *)
Theorem process_csv_row_fetch_irrelevant (fetch fetch' : string -> option response)
    (geo_net : nat -> pyfloat -> pyfloat -> option (option string))
    (r : row) (g : option geocoder)
    (Hnp : contains (row_url r) "maps/place/" = false) :
  process_csv_row fetch geo_net r g = process_csv_row fetch' geo_net r g.
Proof.
  unfold process_csv_row.
  destruct (parse_col r lat_keys) as [lat|]; [|reflexivity].
  destruct (parse_col r lon_keys) as [lon|]; [|reflexivity].
  rewrite (url_branch_fetch fetch fetch' r (row_url r) lat lon Hnp). reflexivity.
Qed.

(** X6.  When the first present latitude and longitude columns both parse
    but one of them is out of range, the row fails with Invalid
    coordinates and the two values.  The URL is not consulted and the
    geocoder is untouched. *)
Theorem explicit_out_of_range_rejected (fetch : string -> option response)
    (geo_net : nat -> pyfloat -> pyfloat -> option (option string))
    (r : row) (g : option geocoder) (a b : pyfloat)
    (Hlat : parse_col r lat_keys = Some (Some a)) (Hlon : parse_col r lon_keys = Some (Some b))
    (Hout : in_range (-90) 90 a = false \/ in_range (-180) 180 b = false) :
  process_csv_row fetch geo_net r g = (RError ("Invalid coordinates " ++ py_repr a ++ "," ++ py_repr b), g).
Proof.
  unfold process_csv_row. rewrite Hlat, Hlon. unfold finish.
  destruct Hout as [Ha|Hb]; [rewrite Ha|rewrite Hb, orb_true_r]; reflexivity.
Qed.

(* ===================================================================== *)
(** * Further properties: process_csv_file *)
(* ===================================================================== *)

Lemma fold_file_step (fetch : string -> option response)
    (geo_net : nat -> pyfloat -> pyfloat -> option (option string))
    (rows : list row) (P : list place) (F : list failed_loc) (g : option geocoder) :
  fold_left (file_step fetch geo_net) rows (P, F, g) =
  ((P ++ places_of (resolve_rows fetch geo_net rows g))%list,
   (F ++ failed_of rows (resolve_rows fetch geo_net rows g))%list,
   run_rows fetch geo_net rows g).
Proof.
  revert P F g. induction rows as [|r rows IH]; intros P F g.
  - simpl. rewrite !app_nil_r. reflexivity.
  - cbn [fold_left resolve_rows run_rows]. cbn [file_step].
    destruct (process_csv_row fetch geo_net r g) as [res g1]. cbn [snd].
    destruct res as [|msg|p]; rewrite IH; cbn [places_of failed_of]; rewrite <- ?app_assoc;
      reflexivity.
Qed.

(** X7.  process_csv_file hands write_kml the places returned for the
    rows, in row order.  It hands it one failure entry per error result,
    in row order; the entry's name is Title, else Name, else Unknown.
    Rows returning None leave no trace.  The returned counts are the
    lengths of these two lists, and the geocoder is threaded through the
    rows in order. *)
Theorem process_csv_file_outputs (fetch : string -> option response)
    (geo_net : nat -> pyfloat -> pyfloat -> option (option string))
    (rows : list row) (g : option geocoder) :
  let rs := resolve_rows fetch geo_net rows g in
  process_csv_file fetch geo_net rows g =
  {| success := length (places_of rs); failed_count := length (failed_of rows rs);
     output := write_kml (places_of rs) (failed_of rows rs);
     final_geocoder := run_rows fetch geo_net rows g |}.
Proof.
  cbv zeta. unfold process_csv_file. rewrite fold_file_step. reflexivity.
Qed.




(* ===================================================================== *)
(** * Further properties: write_kml and get_icon_url *)
(* ===================================================================== *)

Lemma pm_layer_placemark_eq (p : place) : placemarks (layer_placemark p) = [layer_placemark p].
Proof. reflexivity. Qed.

Lemma pm_map_layer_placemark (ps : list place) :
  flat_map placemarks (map layer_placemark ps) = map layer_placemark ps.
Proof.
  induction ps as [|p ps IH]; [reflexivity|].
  cbn [map flat_map]. rewrite pm_layer_placemark_eq, IH. reflexivity.
Qed.

Lemma pm_layer_doc_eq (name desc : string) (ld : layer_data) :
  placemarks (layer_doc name desc ld) = map layer_placemark (ld_places ld).
Proof.
  unfold layer_doc. rewrite !pm_elem. simpl. rewrite !app_nil_r.
  transitivity (flat_map placemarks (map layer_placemark (ld_places ld)));
    [|apply pm_map_layer_placemark].
  generalize (map layer_placemark (ld_places ld)) as l. intros l.
  induction l as [|x l IH]; [reflexivity|]. cbn [flat_map]. rewrite <- IH. reflexivity.
Qed.

Lemma layer_files_sum (tbl : list (string * layer * string)) (ls : layers) :
  list_sum (map (fun nd => length (placemarks (snd nd)))
    (flat_map (fun '(name, l, desc) =>
                 let ld := layer_get ls l in
                 match ld_places ld with
                 | [] => []
                 | _ => [(name, layer_doc name desc ld)]
                 end) tbl))
  = list_sum (map (fun '(_, l, _) => length (ld_places (layer_get ls l))) tbl).
Proof.
  induction tbl as [|[[n l] d] tbl IH]; [reflexivity|].
  cbn [flat_map map]. cbv zeta in IH |- *.
  destruct (ld_places (layer_get ls l)) as [|q qs] eqn:E.
  - simpl. exact IH.
  - rewrite map_app, list_sum_app, IH. cbn [map snd list_sum fold_right].
    rewrite pm_layer_doc_eq, length_map, E. unfold list_sum. simpl. lia.
Qed.

(** X9.  write_kml writes a layer file for exactly the non-empty layers,
    in the order Sleep, Eat, Do.  The file of a layer holds the layer
    Placemarks of that layer's places, in input order.  Together the layer
    files hold exactly one Placemark per place. *)
Theorem layer_files_partition (places : list place) (failed : list failed_loc) :
  map fst (layer_docs (write_kml places failed)) =
    map layer_name (List.filter (fun l => negb (Nat.eqb (length (List.filter (in_layer l) places)) 0))
                                [Sleep; Eat; Do])
  /\ (forall name d, In (name, d) (layer_docs (write_kml places failed)) ->
        exists l, name = layer_name l /\ placemarks d = map layer_placemark (List.filter (in_layer l) places))
  /\ list_sum (map (fun nd => length (placemarks (snd nd))) (layer_docs (write_kml places failed)))
     = length places.
Proof.
  split; [|split].
  - unfold write_kml. cbn [layer_docs]. unfold layer_files, layer_table.
    cbn [flat_map]. cbv zeta. rewrite !organize_layer. cbn [ld_places].
    cbn [List.filter].
    destruct (List.filter (in_layer Sleep) places), (List.filter (in_layer Eat) places),
             (List.filter (in_layer Do) places); reflexivity.
  - intros name d H. unfold write_kml in H. cbn [layer_docs] in H.
    apply layer_files_spec in H as [l [-> [-> _]]]. exists l. split; [reflexivity|].
    rewrite pm_layer_doc_eq, organize_layer. reflexivity.
  - unfold write_kml. cbn [layer_docs]. unfold layer_files.
    rewrite layer_files_sum. unfold layer_table. cbn [map list_sum fold_right].
    rewrite !organize_layer. cbn [ld_places]. rewrite <- (filter_layers_length places). lia.
Qed.

Lemma icon_agg (p : place) : icon_of (agg_mark p) = Some (get_icon_url (Some (place_type_text p))).
Proof. reflexivity. Qed.

Lemma icon_layer (p : place) :
  icon_of (layer_placemark p) = Some (get_icon_url (match p_type p with None => None | Some t => t end)).
Proof. reflexivity. Qed.

Lemma lower_char_idem (c : ascii) : lower_char (lower_char c) = lower_char c.
Proof.
  destruct c as [b0 b1 b2 b3 b4 b5 b6 b7].
  destruct b0, b1, b2, b3, b4, b5, b6, b7; reflexivity.
Qed.

Lemma lower_idem (s : string) : lower (lower s) = lower s.
Proof. induction s as [|c s IH]; simpl; [reflexivity|]. rewrite lower_char_idem, IH. reflexivity. Qed.

Lemma lower_empty (s : string) : String.eqb (lower s) "" = String.eqb s "".
Proof. destruct s; reflexivity. Qed.

Lemma place_type_text_lower (p : place) : lower (place_type_text p) = place_type_text p.
Proof.
  unfold place_type_text. cbv zeta.
  destruct (String.eqb (lower _) "") eqn:E; [reflexivity|]. apply lower_idem.
Qed.

Lemma place_type_text_nonempty (p : place) : String.eqb (place_type_text p) "" = false.
Proof.
  unfold place_type_text. cbv zeta.
  destruct (String.eqb (lower _) "") eqn:E; [reflexivity|]. exact E.
Qed.

(** The icon choice on a lowered, non-empty type text. *)
Lemma get_icon_lowered (t : string) :
  lower t = t -> String.eqb t "" = false ->
  get_icon_url (Some t) =
  if any_in ["hotel"; "motel"; "lodging"] t then icon_lodging
  else if any_in ["restaurant"; "cafe"; "dining"] t then icon_restaurant
  else if any_in ["bar"; "pub"] t then icon_bar
  else if any_in ["hiking"; "trail"] t then icon_hiking
  else if any_in ["swimming"; "pool"; "beach"] t then icon_swimming
  else icon_default.
Proof. intros Hl He. unfold get_icon_url. rewrite He. cbv zeta. rewrite Hl. reflexivity. Qed.

(** X10.  The aggregate document never uses the scenic (camera) icon.  A
    place with no category gets the default icon there, while its layer
    document shows it with the scenic icon.  No category means an absent
    type, a None type or an empty one. *)
Theorem aggregate_icon_never_scenic (p : place) :
  icon_of (agg_mark p) <> Some icon_scenic
  /\ (p_type p = None \/ p_type p = Some None \/ p_type p = Some (Some "") ->
      icon_of (agg_mark p) = Some icon_default /\ icon_of (layer_placemark p) = Some icon_scenic).
Proof.
  split.
  - rewrite icon_agg.
    rewrite (get_icon_lowered _ (place_type_text_lower p) (place_type_text_nonempty p)).
    unfold icon_lodging, icon_restaurant, icon_bar, icon_hiking, icon_swimming, icon_default, icon_scenic.
    repeat (match goal with |- context [if ?b then _ else _] => destruct b end);
      intros E; injection E as E; discriminate E.
  - intros Ht. rewrite icon_agg, icon_layer. unfold place_type_text.
    destruct Ht as [E|[E|E]]; rewrite E; split; reflexivity.
Qed.

(** X11.  In the aggregate document the icon agrees with the layer.  A
    Sleep place has the lodging icon and an Eat place the restaurant or
    bar icon.  A Do place has neither the lodging nor the bar icon. *)
Theorem aggregate_icon_by_layer (p : place) :
  match layer_of (place_type_text p) with
  | Sleep => icon_of (agg_mark p) = Some icon_lodging
  | Eat => icon_of (agg_mark p) = Some icon_restaurant \/ icon_of (agg_mark p) = Some icon_bar
  | Do => icon_of (agg_mark p) <> Some icon_lodging /\ icon_of (agg_mark p) <> Some icon_bar
  end.
Proof.
  rewrite icon_agg.
  rewrite (get_icon_lowered _ (place_type_text_lower p) (place_type_text_nonempty p)).
  unfold layer_of, any_in. generalize (place_type_text p) as t. intros t.
  cbn [existsb]. rewrite !orb_false_r.
  destruct (contains t "hotel"), (contains t "motel"), (contains t "lodging"); cbn [orb];
    try reflexivity.
  destruct (contains t "restaurant"), (contains t "cafe"); cbn [orb]; try (left; reflexivity).
  destruct (contains t "bar"), (contains t "pub"); cbn [orb];
    try (destruct (contains t "dining"); cbn [orb]; [left|right]; reflexivity).
  unfold icon_lodging, icon_restaurant, icon_bar, icon_hiking, icon_swimming, icon_default.
  repeat (match goal with |- context [if ?b then _ else _] => destruct b end);
    split; intros E; injection E as E; discriminate E.
Qed.

(** X12.  The category's letter case does not matter.  Categories s and
    lower s give the same layer and the same icon, both in the aggregate
    document and in the layer documents. *)
Theorem category_case_insensitive (p p' : place) (s : string)
    (Hp : p_type p = Some (Some s)) (Hp' : p_type p' = Some (Some (lower s))) :
  layer_of (place_type_text p) = layer_of (place_type_text p')
  /\ icon_of (agg_mark p) = icon_of (agg_mark p')
  /\ icon_of (layer_placemark p) = icon_of (layer_placemark p').
Proof.
  assert (Ht : place_type_text p = place_type_text p').
  { unfold place_type_text. rewrite Hp, Hp', lower_idem. reflexivity. }
  rewrite !icon_agg, !icon_layer, Ht, Hp, Hp'.
  split; [reflexivity|]. split; [reflexivity|].
  unfold get_icon_url. rewrite lower_empty, lower_idem. reflexivity.
Qed.

(* ===================================================================== *)
(** * Further properties: process_zip_file *)
(* ===================================================================== *)

Lemma row_none_geocoder (fetch : string -> option response)
    (geo_net : nat -> pyfloat -> pyfloat -> option (option string))
    (r : row) (res : row_result) (g' : option geocoder) :
  process_csv_row fetch geo_net r None = (res, g') -> g' = None.
Proof.
  intros H.
  destruct (process_csv_row_spec _ _ _ _ _ _ H) as [[_ ->]|[[p [_ [-> _]]]|[la [lo [Hf _]]]]];
    [reflexivity|reflexivity|].
  destruct (finish_spec _ _ _ _ _ _ _ Hf) as [[-> _]|[[a [b [-> _]]]|Hp]]; [reflexivity|reflexivity|].
  destruct Hp as (p & a & b & _ & _ & _ & _ & _ & _ & _ & _ & _ & _ & Hgeo).
  destruct Hgeo as [[_ [-> _]]|(gc & gc' & addr & E & _)]; [reflexivity|discriminate].
Qed.

Lemma run_rows_none (fetch : string -> option response)
    (geo_net : nat -> pyfloat -> pyfloat -> option (option string)) (rows : list row) :
  run_rows fetch geo_net rows None = None.
Proof.
  induction rows as [|r rows IH]; [reflexivity|]. cbn [run_rows].
  destruct (process_csv_row fetch geo_net r None) as [res g'] eqn:E.
  rewrite (row_none_geocoder _ _ _ _ _ E). exact IH.
Qed.

Lemma fold_zip_row_step (fetch : string -> option response)
    (geo_net : nat -> pyfloat -> pyfloat -> option (option string))
    (rows : list row) acc :
  fold_left (zip_row_step fetch geo_net) rows acc = fold_left (file_step fetch geo_net) rows acc.
Proof.
  revert acc. induction rows as [|r rows IH]; intros acc; [reflexivity|].
  cbn [fold_left]. rewrite IH. destruct acc as [[P F] g]. reflexivity.
Qed.

Lemma zip_step_none (fetch : string -> option response)
    (geo_net : nat -> pyfloat -> pyfloat -> option (option string))
    (zf : archive) results written (f : string) :
  zip_file_step fetch geo_net zf (results, written, None) f =
  (dict_set results f (success (process_csv_file fetch geo_net (zip_open zf f) None)),
   (written ++ [(f, output (process_csv_file fetch geo_net (zip_open zf f) None))])%list, None).
Proof.
  unfold zip_file_step, process_csv_file.
  rewrite fold_zip_row_step, fold_file_step, run_rows_none. reflexivity.
Qed.

Lemma dict_get_set {V : Type} (d : list (string * V)) (k k' : string) (v : V) :
  dict_get (dict_set d k v) k' = if String.eqb k k' then Some v else dict_get d k'.
Proof.
  unfold dict_get. induction d as [|[k0 v0] d IH]; simpl.
  - destruct (String.eqb k k'); reflexivity.
  - destruct (String.eqb k0 k) eqn:E0.
    + apply String.eqb_eq in E0. subst k0. simpl.
      destruct (String.eqb k k'); reflexivity.
    + simpl. destruct (String.eqb k0 k') eqn:E1.
      * apply String.eqb_eq in E1. subst k0.
        destruct (String.eqb k k') eqn:E2; [|reflexivity].
        apply String.eqb_eq in E2. subst k. rewrite String.eqb_refl in E0. discriminate.
      * exact IH.
Qed.

Lemma zip_fold (fetch : string -> option response)
    (geo_net : nat -> pyfloat -> pyfloat -> option (option string))
    (zf : archive) (L : list string) results written :
  let res := fold_left (zip_file_step fetch geo_net zf) L (results, written, None) in
  snd res = None
  /\ (forall n, In n L ->
        dict_get (fst (fst res)) n = Some (success (process_csv_file fetch geo_net (zip_open zf n) None))
        /\ In (n, output (process_csv_file fetch geo_net (zip_open zf n) None)) (snd (fst res)))
  /\ (forall n, ~ In n L -> dict_get (fst (fst res)) n = dict_get results n).
Proof.
  cbv zeta. revert results written. induction L as [|f L IH]; intros results written.
  - simpl. split; [reflexivity|]. split; [intros n []|intros n _; reflexivity].
  - cbn [fold_left]. rewrite zip_step_none.
    destruct (IH (dict_set results f (success (process_csv_file fetch geo_net (zip_open zf f) None)))
                 (written ++ [(f, output (process_csv_file fetch geo_net (zip_open zf f) None))])%list)
      as [H1 [H2 H3]].
    assert (Hw : forall x L' (acc : list (string * nat) * list (string * kml_output) * option geocoder),
               In x (snd (fst acc)) -> snd acc = None ->
               In x (snd (fst (fold_left (zip_file_step fetch geo_net zf) L' acc)))).
    { intros x L'. induction L' as [|f' L' IHL]; intros [[rs wr] g0] Hx Hg; [exact Hx|].
      simpl in Hg. subst g0. cbn [fold_left]. rewrite zip_step_none. apply IHL; [|reflexivity].
      simpl. apply in_or_app. left. exact Hx. }
    split; [exact H1|]. split.
    + intros n [->|Hn].
      * destruct (in_dec string_dec n L) as [Hin|Hnin]; [exact (H2 n Hin)|].
        rewrite (H3 n Hnin), dict_get_set, String.eqb_refl. split; [reflexivity|].
        apply Hw; [|reflexivity]. simpl. apply in_or_app. right. left. reflexivity.
      * exact (H2 n Hn).
    + intros n Hn. rewrite H3 by (intros Hi; apply Hn; right; exact Hi).
      rewrite dict_get_set. destruct (String.eqb f n) eqn:E; [|reflexivity].
      apply String.eqb_eq in E. exfalso. apply Hn. left. exact E.
Qed.

(** X13.  With geocoding off, the results of process_zip_file have a key
    for exactly the members whose name ends in .csv, in any letter case.
    For each such member, the count and the document written are those
    process_csv_file gives on that member's rows.  A duplicated name is
    converted from its last member. *)
Theorem zip_results (fetch : string -> option response)
    (geo_net : nat -> pyfloat -> pyfloat -> option (option string))
    (zf : archive) (name : string) :
  let res := process_zip_file fetch geo_net zf None in
  (dict_get (fst (fst res)) name <> None <-> In name (map fst zf) /\ is_csv name = true)
  /\ (In name (map fst zf) -> is_csv name = true ->
      dict_get (fst (fst res)) name = Some (success (process_csv_file fetch geo_net (zip_open zf name) None))
      /\ In (name, output (process_csv_file fetch geo_net (zip_open zf name) None)) (snd (fst res))).
Proof.
  cbv zeta. unfold process_zip_file.
  destruct (zip_fold fetch geo_net zf (List.filter is_csv (map fst zf)) [] []) as [_ [H2 H3]].
  split.
  - split.
    + intros Hd. destruct (in_dec string_dec name (List.filter is_csv (map fst zf))) as [Hin|Hnin].
      * apply List.filter_In in Hin. exact Hin.
      * rewrite (H3 name Hnin) in Hd. exfalso. apply Hd. reflexivity.
    + intros Hin. apply List.filter_In in Hin. rewrite (proj1 (H2 name Hin)). discriminate.
  - intros Hin Hc. apply H2. apply List.filter_In. split; assumption.
Qed.

Lemma zip_open_same (zf zf' : archive) (n : string)
    (Hsame : Forall2 (fun m m' => fst m = fst m' /\ (is_csv (fst m) = true -> snd m = snd m')) zf zf')
    (Hn : is_csv n = true) :
  zip_open zf n = zip_open zf' n.
Proof.
  unfold zip_open. generalize (@nil row) as acc.
  induction Hsame as [|[m rows] [m' rows'] zf zf' [Hm Hr] _ IH]; intros acc; [reflexivity|].
  simpl in Hm, Hr. subst m'. cbn [fold_left].
  destruct (String.eqb m n) eqn:E; [|apply IH].
  apply String.eqb_eq in E. subst m. rewrite (Hr Hn). apply IH.
Qed.

(** X14.  process_zip_file never reads a member whose name does not end
    in .csv: changing the contents of such members leaves its results,
    the documents written and the geocoder unchanged. *)
Theorem zip_ignores_non_csv (fetch : string -> option response)
    (geo_net : nat -> pyfloat -> pyfloat -> option (option string))
    (zf zf' : archive) (g : option geocoder)
    (Hsame : Forall2 (fun m m' => fst m = fst m' /\ (is_csv (fst m) = true -> snd m = snd m')) zf zf') :
  process_zip_file fetch geo_net zf g = process_zip_file fetch geo_net zf' g.
Proof.
  unfold process_zip_file.
  assert (Hn : map fst zf = map fst zf').
  { induction Hsame as [|x y l l' [Hxy _] _ IH]; [reflexivity|]. simpl. rewrite Hxy, IH. reflexivity. }
  rewrite <- Hn.
  assert (Hall : forall n, In n (List.filter is_csv (map fst zf)) -> is_csv n = true).
  { intros n Hin. apply List.filter_In in Hin. apply Hin. }
  generalize (@nil (string * nat), @nil (string * kml_output), g) as acc.
  induction (List.filter is_csv (map fst zf)) as [|f L IH]; intros acc; [reflexivity|].
  cbn [fold_left].
  assert (Hf : zip_file_step fetch geo_net zf acc f = zip_file_step fetch geo_net zf' acc f).
  { unfold zip_file_step. rewrite (zip_open_same zf zf' f Hsame (Hall f (or_introl eq_refl))).
    reflexivity. }
  rewrite Hf. apply IH. intros n Hin. apply Hall. right. exact Hin.
Qed.

(* ===================================================================== *)
(** * Further properties: google_maps_to_kml.py *)
(* ===================================================================== *)

Lemma legacy_rows_none (fetch : string -> option response)
    (geo_net : nat -> pyfloat -> pyfloat -> option (option string))
    (rows : list row) (P : list row_result) :
  fold_left (legacy_zip_row_step fetch geo_net) rows (P, None) =
  ((P ++ List.filter is_some_result (resolve_rows fetch geo_net rows None))%list, None).
Proof.
  revert P. induction rows as [|r rows IH]; intros P; [simpl; rewrite app_nil_r; reflexivity|].
  cbn [fold_left resolve_rows]. unfold legacy_zip_row_step at 2.
  destruct (process_csv_row fetch geo_net r None) as [res g'] eqn:E.
  rewrite (row_none_geocoder _ _ _ _ _ E).
  destruct res; rewrite IH; cbn [List.filter is_some_result]; rewrite <- ?app_assoc; reflexivity.
Qed.

Lemma legacy_marks_none (l : list row_result) :
  legacy_marks l = None <-> exists x, In x l /\ is_place x = false.
Proof.
  induction l as [|x l IH]; simpl.
  - split; [discriminate|intros [x [[] _]]].
  - destruct x as [|msg|p].
    + split; [intros _; exists RNone; tauto|reflexivity].
    + split; [intros _; exists (RError msg); tauto|reflexivity].
    + destruct (legacy_marks l) eqn:E; simpl.
      * split; [discriminate|]. intros [y [[<-|Hy] Hp]]; [discriminate|].
        discriminate (proj2 IH (ex_intro _ y (conj Hy Hp))).
      * split; [intros _|reflexivity].
        destruct (proj1 IH eq_refl) as [y [Hy Hp]]. exists y. tauto.
Qed.

Lemma legacy_fold_none (fetch : string -> option response)
    (geo_net : nat -> pyfloat -> pyfloat -> option (option string))
    (zf : archive) (L : list string) :
  fold_left (legacy_zip_step fetch geo_net zf) L None = None.
Proof. induction L as [|f L IH]; [reflexivity|]. exact IH. Qed.

Lemma legacy_fold_abort (fetch : string -> option response)
    (geo_net : nat -> pyfloat -> pyfloat -> option (option string))
    (zf : archive) (L : list string) results written :
  fold_left (legacy_zip_step fetch geo_net zf) L (Some (results, written, None)) = None <->
  exists name msg, In name L /\ is_csv name = true /\
                   In (RError msg) (resolve_rows fetch geo_net (zip_open zf name) None).
Proof.
  revert results written. induction L as [|f L IH]; intros results written.
  - simpl. split; [discriminate|]. intros (n & msg & [] & _).
  - cbn [fold_left]. unfold legacy_zip_step at 2.
    destruct (is_csv f) eqn:Hc.
    + rewrite legacy_rows_none. rewrite app_nil_l. unfold legacy_write_kml.
      destruct (legacy_marks (List.filter is_some_result (resolve_rows fetch geo_net (zip_open zf f) None)))
        eqn:Em.
      * rewrite IH. split.
        -- intros (n & msg & Hn & Hcn & Hm). exists n, msg. split; [right; exact Hn|]. tauto.
        -- intros (n & msg & [->|Hn] & Hcn & Hm).
           ++ exfalso. assert (Hnone : legacy_marks (List.filter is_some_result
                            (resolve_rows fetch geo_net (zip_open zf n) None)) = None).
              { apply legacy_marks_none. exists (RError msg). split; [|reflexivity].
                apply List.filter_In. split; [exact Hm|reflexivity]. }
              congruence.
           ++ exists n, msg. tauto.
      * rewrite legacy_fold_none. split; [intros _|reflexivity].
        apply legacy_marks_none in Em as [x [Hx Hp]].
        apply List.filter_In in Hx as [Hx Hs].
        destruct x as [|msg|p]; try discriminate.
        exists f, msg. split; [left; reflexivity|]. tauto.
    + rewrite IH. split.
      * intros (n & msg & Hn & Hcn & Hm). exists n, msg. split; [right; exact Hn|]. tauto.
      * intros (n & msg & [->|Hn] & Hcn & Hm); [congruence|]. exists n, msg. tauto.
Qed.

(** X15.  In google_maps_to_kml.py, with geocoding off, process_zip_file
    raises when some CSV member has a row for which process_csv_row
    returns an error record: the loop appends the record to the places,
    and write_kml raises KeyError on its missing name key. *)
Theorem legacy_zip_aborts_on_error (fetch : string -> option response)
    (geo_net : nat -> pyfloat -> pyfloat -> option (option string))
    (zf : archive) (name msg : string)
    (Hin : In name (map fst zf)) (Hcsv : is_csv name = true)
    (Herr : In (RError msg) (resolve_rows fetch geo_net (zip_open zf name) None)) :
  legacy_process_zip_file fetch geo_net zf None = None.
Proof.
  unfold legacy_process_zip_file. apply legacy_fold_abort.
  exists name, msg. split; [exact Hin|]. split; [exact Hcsv|exact Herr].
Qed.

Lemma legacy_marks_places (ps : list place) :
  legacy_marks (map RPlace ps) = Some (map legacy_placemark ps).
Proof. induction ps as [|p ps IH]; [reflexivity|]. simpl. rewrite IH. reflexivity. Qed.

Lemma cpp_legacy_marks (ps : list place) :
  list_sum (map count_point_placemarks (map legacy_placemark ps)) = length ps.
Proof.
  induction ps as [|p ps IH]; [reflexivity|].
  unfold list_sum in *. cbn [map fold_right length]. rewrite IH.
  assert (H1 : count_point_placemarks (legacy_placemark p) = 1)
    by (unfold legacy_placemark; destruct (p_address p); reflexivity).
  rewrite H1. reflexivity.
Qed.

Lemma fs_legacy_marks (ps : list place) :
  existsb is_failed_title (map legacy_placemark ps) = false
  /\ flat_map failed_sections (map legacy_placemark ps) = [].
Proof.
  induction ps as [|p ps IH]; [split; reflexivity|].
  cbn [map existsb flat_map]. destruct IH as [IH1 IH2]. rewrite IH1, IH2.
  unfold legacy_placemark; destruct (p_address p); split; reflexivity.
Qed.

(** X16.  On every CSV, the process_csv_file of google_maps_to_kml.py
    returns the same success and failure counts and the same geocoder as
    the one of convert.py.  Its document holds one point Placemark per
    place and the same Failed Conversions section. *)
Theorem legacy_csv_matches_convert (fetch : string -> option response)
    (geo_net : nat -> pyfloat -> pyfloat -> option (option string))
    (rows : list row) (g : option geocoder) :
  let res := process_csv_file fetch geo_net rows g in
  exists doc,
    legacy_process_csv_file fetch geo_net rows g
      = Some (success res, failed_count res, doc, final_geocoder res)
    /\ count_point_placemarks doc = success res
    /\ failed_sections doc = failed_sections (aggregate (output res)).
Proof.
  cbv zeta. unfold legacy_process_csv_file, process_csv_file.
  destruct (fold_left (file_step fetch geo_net) rows ([], [], g)) as [[P F] g'].
  unfold legacy_write_kml. rewrite legacy_marks_places.
  eexists. split; [cbn [success failed_count final_geocoder count write_kml]; rewrite length_map; reflexivity|].
  cbn [success output]. rewrite write_kml_failed. cbn [count write_kml].
  split.
  - rewrite !cpp_elem. cbn [map]. rewrite cpp_elem.
    unfold list_sum. cbn [fold_right]. rewrite map_app, fold_right_app.
    change (fold_right Nat.add 0 (map count_point_placemarks (failed_folder F)))
      with (list_sum (map count_point_placemarks (failed_folder F))).
    rewrite cpp_failed_folder.
    change (fold_right Nat.add 0 (map count_point_placemarks (map legacy_placemark P)))
      with (list_sum (map count_point_placemarks (map legacy_placemark P))).
    rewrite cpp_legacy_marks. simpl. lia.
  - rewrite !fs_elem. destruct (fs_legacy_marks P) as [H1 H2].
    cbn [flat_map String.eqb existsb andb app]. rewrite fs_elem, flat_map_app, H2, fs_failed_folder.
    simpl. rewrite app_nil_r. destruct F; reflexivity.
Qed.

(* ===================================================================== *)
(** * Witnesses of the further properties *)
(* ===================================================================== *)

Lemma reverse_geocode_cache_grows_witness :
  reverse_geocode geo_ok geocoder0 (pf false 1 0) (pf false 2 0) = (Some "1 Main St", geocoder_1_2)
  /\ (forall k w, cache geocoder0 !! k = Some w -> cache geocoder_1_2 !! k = Some w)
  /\ ((cache geocoder0 !! cache_key (pf false 1 0) (pf false 2 0) = Some (Some "1 Main St")
       /\ geocoder_1_2 = geocoder0)
      \/ (cache geocoder0 !! cache_key (pf false 1 0) (pf false 2 0) = None
          /\ requests geocoder_1_2 = S (requests geocoder0))).
Proof.
  assert (H : reverse_geocode geo_ok geocoder0 (pf false 1 0) (pf false 2 0)
              = (Some "1 Main St", geocoder_1_2)) by (vm_compute; reflexivity).
  split; [exact H|]. exact (reverse_geocode_cache_grows _ _ _ _ _ _ H).
Defined.

Lemma process_csv_row_errors_witness :
  process_csv_row no_fetch no_geo row_bad None = (RError "Invalid coordinates 200.0,-74.006", None)
  /\ None = @None geocoder /\
  ("Invalid coordinates 200.0,-74.006" = "Could not extract coordinates from URL"
   \/ exists a b, "Invalid coordinates 200.0,-74.006" = "Invalid coordinates " ++ py_repr a ++ "," ++ py_repr b /\
                  (in_range (-90) 90 a = false \/ in_range (-180) 180 b = false)).
Proof.
  assert (H : process_csv_row no_fetch no_geo row_bad None = (RError "Invalid coordinates 200.0,-74.006", None))
    by (vm_compute; reflexivity).
  split; [exact H|]. exact (process_csv_row_errors _ _ _ _ _ _ H).
Defined.

Lemma process_csv_row_geocoder_witness :
  process_csv_row (redirect_to "/@10,20,15z") geo_ok row_short_link (Some geocoder0)
    = (RPlace short_place, Some geocoder0)
  /\ (Some geocoder0 = Some geocoder0 \/ exists gc gc' p a b addr,
        Some geocoder0 = Some gc /\ Some geocoder0 = Some gc' /\ RPlace short_place = RPlace p /\
        p_lat p = Some a /\ p_lon p = Some b /\ p_address p = Some addr /\
        reverse_geocode geo_ok gc a b = (addr, gc'))
  /\ (forall p, RPlace short_place = RPlace p -> Some geocoder0 = None -> p_address p = None)
  /\ (forall p, RPlace short_place = RPlace p -> Some geocoder0 <> None -> p_address p = None ->
        exists la lo, url_branch (redirect_to "/@10,20,15z") row_short_link (row_url row_short_link) la lo
                        = Return p
          /\ contains (row_url row_short_link) "maps/search/" = false
          /\ (contains (row_url row_short_link) "!3d" && contains (row_url row_short_link) "!4d") = false
          /\ contains (row_url row_short_link) "@" = false
          /\ contains (row_url row_short_link) "maps/place/" = true
          /\ place_branch (redirect_to "/@10,20,15z") row_short_link (row_url row_short_link) la lo
             = Return p).
Proof.
  assert (H : process_csv_row (redirect_to "/@10,20,15z") geo_ok row_short_link (Some geocoder0)
              = (RPlace short_place, Some geocoder0)) by (vm_compute; reflexivity).
  split; [exact H|]. exact (process_csv_row_geocoder _ _ _ _ _ _ H).
Defined.

Lemma process_csv_row_place_validated_witness :
  process_csv_row no_fetch no_geo row_cafe None = (RPlace cafe_plain, None)
  /\ contains (row_url row_cafe) "maps/place/" = false
  /\ exists a b, p_lat cafe_plain = Some a /\ p_lon cafe_plain = Some b /\
                in_range (-90) 90 a = true /\ in_range (-180) 180 b = true /\
                p_url cafe_plain = row_url row_cafe /\ p_type cafe_plain = None.
Proof.
  assert (H : process_csv_row no_fetch no_geo row_cafe None = (RPlace cafe_plain, None))
    by (vm_compute; reflexivity).
  assert (Hnp : contains (row_url row_cafe) "maps/place/" = false) by (vm_compute; reflexivity).
  split; [exact H|]. split; [exact Hnp|].
  exact (process_csv_row_place_validated _ _ _ _ _ _ H Hnp).
Defined.

Lemma process_csv_row_fetch_irrelevant_witness :
  contains (row_url row_cafe) "maps/place/" = false
  /\ process_csv_row no_fetch no_geo row_cafe None
     = process_csv_row (redirect_to "/@1,2,3z") no_geo row_cafe None.
Proof.
  assert (Hnp : contains (row_url row_cafe) "maps/place/" = false) by (vm_compute; reflexivity).
  split; [exact Hnp|]. exact (process_csv_row_fetch_irrelevant _ _ _ _ _ Hnp).
Defined.

Lemma explicit_out_of_range_rejected_witness :
  parse_col row_lat_95 lat_keys = Some (Some (pf false 95 0))
  /\ parse_col row_lat_95 lon_keys = Some (Some (pf false 0 0))
  /\ (in_range (-90) 90 (pf false 95 0) = false \/ in_range (-180) 180 (pf false 0 0) = false)
  /\ process_csv_row no_fetch geo_ok row_lat_95 (Some geocoder0)
     = (RError ("Invalid coordinates " ++ py_repr (pf false 95 0) ++ "," ++ py_repr (pf false 0 0)),
        Some geocoder0).
Proof.
  assert (Hlat : parse_col row_lat_95 lat_keys = Some (Some (pf false 95 0))) by (vm_compute; reflexivity).
  assert (Hlon : parse_col row_lat_95 lon_keys = Some (Some (pf false 0 0))) by (vm_compute; reflexivity).
  assert (Hout : in_range (-90) 90 (pf false 95 0) = false \/ in_range (-180) 180 (pf false 0 0) = false)
    by (left; vm_compute; reflexivity).
  split; [exact Hlat|]. split; [exact Hlon|]. split; [exact Hout|].
  exact (explicit_out_of_range_rejected _ _ _ _ _ _ Hlat Hlon Hout).
Defined.

Lemma category_case_insensitive_witness :
  p_type (place_with_type (Some (Some "Hotel"))) = Some (Some "Hotel")
  /\ p_type (place_with_type (Some (Some "hotel"))) = Some (Some (lower "Hotel"))
  /\ layer_of (place_type_text (place_with_type (Some (Some "Hotel"))))
     = layer_of (place_type_text (place_with_type (Some (Some "hotel"))))
  /\ icon_of (agg_mark (place_with_type (Some (Some "Hotel"))))
     = icon_of (agg_mark (place_with_type (Some (Some "hotel"))))
  /\ icon_of (layer_placemark (place_with_type (Some (Some "Hotel"))))
     = icon_of (layer_placemark (place_with_type (Some (Some "hotel")))).
Proof.
  assert (Hp : p_type (place_with_type (Some (Some "Hotel"))) = Some (Some "Hotel")) by reflexivity.
  assert (Hp' : p_type (place_with_type (Some (Some "hotel"))) = Some (Some (lower "Hotel")))
    by (vm_compute; reflexivity).
  split; [exact Hp|]. split; [exact Hp'|].
  exact (category_case_insensitive _ _ _ Hp Hp').
Defined.

Lemma zip_ignores_non_csv_witness :
  Forall2 (fun m m' => fst m = fst m' /\ (is_csv (fst m) = true -> snd m = snd m')) zip_a zip_b
  /\ process_zip_file no_fetch no_geo zip_a None = process_zip_file no_fetch no_geo zip_b None.
Proof.
  assert (Hs : Forall2 (fun m m' => fst m = fst m' /\ (is_csv (fst m) = true -> snd m = snd m')) zip_a zip_b).
  { constructor; [split; [reflexivity|intros _; reflexivity]|].
    constructor; [|constructor]. split; [reflexivity|]. intros Hc. vm_compute in Hc. discriminate Hc. }
  split; [exact Hs|]. exact (zip_ignores_non_csv _ _ _ _ _ Hs).
Defined.

Lemma legacy_zip_aborts_on_error_witness :
  In "a.csv" (map fst zip_err) /\ is_csv "a.csv" = true
  /\ In (RError "Invalid coordinates 200.0,-74.006")
        (resolve_rows no_fetch no_geo (zip_open zip_err "a.csv") None)
  /\ legacy_process_zip_file no_fetch no_geo zip_err None = None.
Proof.
  assert (Hin : In "a.csv" (map fst zip_err)) by (left; reflexivity).
  assert (Hcsv : is_csv "a.csv" = true) by (vm_compute; reflexivity).
  assert (Herr : In (RError "Invalid coordinates 200.0,-74.006")
                    (resolve_rows no_fetch no_geo (zip_open zip_err "a.csv") None))
    by (vm_compute; right; left; reflexivity).
  split; [exact Hin|]. split; [exact Hcsv|]. split; [exact Herr|].
  exact (legacy_zip_aborts_on_error _ _ _ _ _ Hin Hcsv Herr).
Defined.
